(** * Spot detection and intensity assembly (starfish)

    A shallow embedding of

    - [starfish/spots/_detector/detect.py]: [measure_spot_intensity],
      [measure_spot_intensities],
      [concatenate_spot_attributes_to_intensities] and [detect_spots];
    - [starfish/core/spots/FindSpots/_base.py]:
      [FindSpotsAlgorithmBase._get_measurement_function].

    Numbers held in pandas / numpy containers are modelled by exact
    rationals extended with NaN; Python exceptions by an error monad;
    the in-place update of [spots.data] by explicit state passing. *)

From Stdlib Require Import ZArith QArith Qround Lia String Ascii List.
From stdpp Require Import gmap strings list fin_maps.

Local Open Scope Z_scope.

(** ** Exceptions *)

(** An exception that escapes from a callable supplied by the caller (the
    measurement statistic, the spot finder) or from a collaborator; it
    carries the Python class name and the message. *)
Record foreign_exception := { exc_class : string; exc_message : string }.

(** What this module raises itself, plus whatever propagates up. *)
Inductive exn :=
| ValueError (msg : string)
| KeyError (key : string)
| IndexError (msg : string)
| Propagated (e : foreign_exception).

Inductive result (A : Type) :=
| Ok (a : A)
| Raise (e : exn).
Arguments Ok {A} a.
Arguments Raise {A} e.

(** Outcome of a caller-supplied callable. *)
Definition callee (A : Type) := sum A foreign_exception.

Definition of_callee {A} (r : callee A) : result A :=
  match r with
  | inl a => Ok a
  | inr e => Raise (Propagated e)
  end.

(** ** State and error monad

    [M S A] is a computation that reads and updates a store [S] and
    either returns an [A] or raises.  The store reached before a raise is
    kept, as for a Python object mutated before the exception. *)
Module PyM.

Definition M (S A : Type) := S -> result A * S.

Definition ret {S A} (a : A) : M S A := fun s => (Ok a, s).

Definition bind {S A B} (m : M S A) (k : A -> M S B) : M S B :=
  fun s =>
    match m s with
    | (Ok a, s') => k a s'
    | (Raise e, s') => (Raise e, s')
    end.

Definition raise {S A} (e : exn) : M S A := fun s => (Raise e, s).

Definition get {S} : M S S := fun s => (Ok s, s).

Definition modify {S} (f : S -> S) : M S unit := fun s => (Ok tt, f s).

Definition lift {S A} (r : result A) : M S A := fun s => (r, s).

(** Sequential traversal, left to right, stopping at the first raise. *)
Fixpoint mapM {S A B} (f : A -> M S B) (l : list A) : M S (list B) :=
  match l with
  | [] => ret []
  | a :: l' => bind (f a) (fun b => bind (mapM f l') (fun bs => ret (b :: bs)))
  end.

Fixpoint forM_ {S A} (l : list A) (f : A -> M S unit) : M S unit :=
  match l with
  | [] => ret tt
  | a :: l' => bind (f a) (fun _ => forM_ l' f)
  end.

End PyM.

Declare Scope py_scope.
Delimit Scope py_scope with py.
Notation "'do' x <- m ; k" := (PyM.bind m (fun x => k))
  (at level 10, x name, m at level 100, k at level 200) : py_scope.
Notation "'run' m ; k" := (PyM.bind m (fun _ => k))
  (at level 10, m at level 100, k at level 200) : py_scope.

(** ** Numbers *)

(** A float64 cell: a finite number or NaN. *)
Inductive cell :=
| Num (q : Q)
| NaN.

Definition is_num (c : cell) : bool :=
  match c with Num _ => true | NaN => false end.

(** Conversion of a float to [int]: truncation towards zero. *)
Definition Qtrunc (q : Q) : Z := Z.quot (Qnum q) (Zpos (Qden q)).

Definition cell_trunc (c : cell) : Z :=
  match c with Num q => Qtrunc q | NaN => 0 end.

(** [np.ceil] on one cell (the result is still a float). *)
Definition cell_ceil (c : cell) : cell :=
  match c with Num q => Num (inject_Z (Qceiling q)) | NaN => NaN end.

(** float cell minus / plus an integer. *)
Definition cell_sub_int (c : cell) (k : Z) : cell :=
  match c with Num q => Num (q - inject_Z k)%Q | NaN => NaN end.

Definition cell_add_int (c : cell) (k : Z) : cell :=
  match c with Num q => Num (q + inject_Z k)%Q | NaN => NaN end.

(** [np.clip(c, lo, None)] and [np.clip(c, None, hi)] on one cell. *)
Definition clip_lower (lo : Z) (c : cell) : cell :=
  match c with
  | Num q => if Qle_bool (inject_Z lo) q then Num q else Num (inject_Z lo)
  | NaN => NaN
  end.

Definition clip_upper (hi : Z) (c : cell) : cell :=
  match c with
  | Num q => if Qle_bool q (inject_Z hi) then Num q else Num (inject_Z hi)
  | NaN => NaN
  end.

(** ** Tables *)

(** A pandas Series, by position.  Only positions below the row count of
    the frame that holds it are meaningful. *)
Definition Series := nat -> cell.

(** A pandas DataFrame: a row count and named columns over the same
    index.  The order of the columns is not represented. *)
Record DataFrame := {
  nrows : nat;
  columns : gmap string Series
}.

Record SpotAttributes := { data : DataFrame }.

Definition set_column (name : string) (s : Series) (df : DataFrame) : DataFrame :=
  {| nrows := nrows df; columns := <[name := s]> (columns df) |}.

Definition nan_cast_message : string :=
  "Cannot convert non-finite values (NA or inf) to integer".

(** [series.astype(int)] over the first [n] positions: raises on NaN. *)
Definition astype_int (n : nat) (s : Series) : result (nat -> Z) :=
  if forallb (fun i => is_num (s i)) (seq 0 n)
  then Ok (fun i => cell_trunc (s i))
  else Raise (ValueError nan_cast_message).

(** [df[name]]: KeyError when the column is missing. *)
Definition column (name : string) (df : DataFrame) : result Series :=
  match columns df !! name with
  | Some s => Ok s
  | None => Raise (KeyError name)
  end.

Definition getitem (name : string) : PyM.M DataFrame Series :=
  fun df => (column name df, df).

(** [df[name] = s], in place. *)
Definition setitem (name : string) (s : Series) : PyM.M DataFrame unit :=
  PyM.modify (set_column name s).

(** ** Images *)

(** A 3-d array (z, y, x): its shape and its voxels. *)
Record ndarray := {
  shape : nat * nat * nat;
  voxel : nat -> nat -> nat -> cell
}.

(** One bound of a Python slice on an axis of length [n]: a negative
    bound counts from the end, and both ends saturate. *)
Definition slice_bound (n : Z) (i : Z) : Z :=
  if i <? 0 then Z.max (i + n) 0 else Z.min i n.

(** [lo:hi] on an axis of length [n]: first position and length. *)
Definition slice_range (lo hi : Z) (n : nat) : nat * nat :=
  let a := slice_bound (Z.of_nat n) lo in
  let b := slice_bound (Z.of_nat n) hi in
  (Z.to_nat a, Z.to_nat (b - a)).

(** [image[z0:z1, y0:y1, x0:x1]]. *)
Definition subarray (image : ndarray) (z0 z1 y0 y1 x0 x1 : Z) : ndarray :=
  let '(nz, ny, nx) := shape image in
  let '(sz, lz) := slice_range z0 z1 nz in
  let '(sy, ly) := slice_range y0 y1 ny in
  let '(sx, lx) := slice_range x0 x1 nx in
  {| shape := (lz, ly, lx);
     voxel := fun i j k => voxel image (sz + i)%nat (sy + j)%nat (sx + k)%nat |}.

(** The measurement statistic: any callable from a sub-array to a number. *)
Definition Measurement := ndarray -> callee cell.

(** ** measure_spot_intensity (detect.py, lines 16-64) *)

Local Open Scope string_scope.
Local Open Scope py_scope.

(** Lines 53-56: the integer radius of every spot. *)
Definition box_radius (radius_is_gyration : bool) : PyM.M DataFrame (nat -> Z) :=
  do df <- PyM.get;
  if radius_is_gyration then
    do col <- getitem "radius";
    do r <- PyM.lift (astype_int (nrows df) (fun i => cell_ceil (col i)));
    PyM.ret (fun i => r i + 1)
  else
    do col <- getitem "radius";
    PyM.lift (astype_int (nrows df) col).

(** Line 59, right-hand side, on one row:
    [np.clip(center - (radius - 1), 0, None)]. *)
Definition box_min (radius : Z) (center : cell) : cell :=
  clip_lower 0 (cell_sub_int center (radius - 1)).

(** Line 60, right-hand side, on one row:
    [np.clip(center + radius, None, max_size)]. *)
Definition box_max (max_size : nat) (radius : Z) (center : cell) : cell :=
  clip_upper (Z.of_nat max_size) (cell_add_int center radius).

(** Lines 59-60: the body of the loop over the axes. *)
Definition box_axis (radius : nat -> Z) (axis : string * nat) : PyM.M DataFrame unit :=
  let '(v, max_size) := axis in
  do c <- getitem v;
  run setitem (v +:+ "_min") (fun i => box_min (radius i) (c i));
  do c' <- getitem v;
  setitem (v +:+ "_max") (fun i => box_max max_size (radius i) (c' i)).

(** [zip(['z', 'y', 'x'], image.shape)]. *)
Definition axes_of (image : ndarray) : list (string * nat) :=
  let '(nz, ny, nx) := shape image in [("z", nz); ("y", ny); ("x", nx)].

(** The integer bounding box of one row. *)
Record bbox := {
  z_min : Z; z_max : Z;
  y_min : Z; y_max : Z;
  x_min : Z; x_max : Z
}.

(** Line 61: [spots.data[[...six columns...]].astype(int)]. *)
Definition box_table : PyM.M DataFrame (nat -> bbox) :=
  do df <- PyM.get;
  do zmin <- getitem "z_min";
  do zmax <- getitem "z_max";
  do ymin <- getitem "y_min";
  do ymax <- getitem "y_max";
  do xmin <- getitem "x_min";
  do xmax <- getitem "x_max";
  do zmin' <- PyM.lift (astype_int (nrows df) zmin);
  do zmax' <- PyM.lift (astype_int (nrows df) zmax);
  do ymin' <- PyM.lift (astype_int (nrows df) ymin);
  do ymax' <- PyM.lift (astype_int (nrows df) ymax);
  do xmin' <- PyM.lift (astype_int (nrows df) xmin);
  do xmax' <- PyM.lift (astype_int (nrows df) xmax);
  PyM.ret (fun i =>
    {| z_min := zmin' i; z_max := zmax' i;
       y_min := ymin' i; y_max := ymax' i;
       x_min := xmin' i; x_max := xmax' i |}).

(** Lines 46-50: [image[z_min:z_max, y_min:y_max, x_min:x_max]]. *)
Definition crop (image : ndarray) (row : bbox) : ndarray :=
  subarray image (z_min row) (z_max row)
                 (y_min row) (y_max row)
                 (x_min row) (x_max row).

(** Lines 45-51: the closure [fn] applied to one row. *)
Definition fn (image : ndarray) (measurement_function : Measurement)
    (row : bbox) : result cell :=
  of_callee (measurement_function (crop image row)).

(** Lines 53-61: the integer boxes of all rows. *)
Definition spot_boxes (image : ndarray) (radius_is_gyration : bool)
    : PyM.M DataFrame (nat -> bbox) :=
  do radius <- box_radius radius_is_gyration;
  run PyM.forM_ (axes_of image) (box_axis radius);
  box_table.

Definition measure_spot_intensity (image : ndarray)
    (measurement_function : Measurement) (radius_is_gyration : bool)
    : PyM.M DataFrame (list cell) :=
  do boxes <- spot_boxes image radius_is_gyration;
  do df <- PyM.get;
  PyM.mapM (fun i => PyM.lift (fn image measurement_function (boxes i)))
           (seq 0 (nrows df)).

Local Close Scope Z_scope.
Local Open Scope nat_scope.

(** ** Collaborators that are not part of these files *)

(** Modelled from the spec: [IntensityTable], whose class is imported from
    [starfish.intensity_table].  "A three-axis numeric tensor indexed by
    (spot, channel, round), plus a per-spot side table"; it is "created
    empty with shape derived from spot count x n_channel x n_round" and an
    unset entry is NaN. *)
Record IntensityTable := {
  features : DataFrame;
  n_ch : nat;
  n_round : nat;
  values : nat -> nat -> nat -> cell
}.

(** [intensity_table.sizes[Features.AXIS]]. *)
Definition n_features (t : IntensityTable) : nat := nrows (features t).

(** Modelled from the spec: [IntensityTable.empty_intensity_table]. *)
Definition empty_intensity_table (spot_attributes : SpotAttributes)
    (n_ch n_round : nat) : IntensityTable :=
  {| features := data spot_attributes;
     n_ch := n_ch;
     n_round := n_round;
     values := fun _ _ _ => NaN |}.

(** [intensity_table[i, c, r] = v]. *)
Definition set_entry (i c r : nat) (v : cell) (t : IntensityTable)
    : result IntensityTable :=
  if (i <? n_features t) && (c <? n_ch t) && (r <? n_round t) then
    Ok {| features := features t; n_ch := n_ch t; n_round := n_round t;
          values := fun i' c' r' =>
            if (i' =? i) && (c' =? c) && (r' =? r) then v
            else values t i' c' r' |}
  else Raise (IndexError "index is out of bounds").

(** [intensity_table[:, c, r] = vs]. *)
Definition set_slice (c r : nat) (vs : list cell) (t : IntensityTable)
    : result IntensityTable :=
  if (c <? n_ch t) && (r <? n_round t) then
    if length vs =? n_features t then
      Ok {| features := features t; n_ch := n_ch t; n_round := n_round t;
            values := fun i' c' r' =>
              if (i' <? n_features t) && (c' =? c) && (r' =? r)
              then nth i' vs NaN
              else values t i' c' r' |}
    else Raise (ValueError "could not broadcast input array")
  else Raise (IndexError "index is out of bounds").

(** Modelled from the spec: the volume ([ImageStack], imported from
    [starfish.imagestack]).  It "exposes per-axis extents and a
    read-by-axis-selection operation", "tiles_aligned", a maximum
    projection, and a transform that applies a function independently per
    (round, channel) group; [tile_groups] lists the groups in the order
    the transform visits them. *)
Record ImageStack := {
  shape_ch : nat;
  shape_round : nat;
  get_slice : nat -> nat -> ndarray;
  tiles_aligned : bool;
  max_proj : ndarray;
  tile_groups : list (nat * nat)
}.

(** ** Observable steps *)

Inductive event :=
| EvGetSlice (c r : nat)
| EvWriteSlice (c r : nat)
| EvWrite (i c r : nat) (v : cell)
| EvMaxProj
| EvFindSpots
| EvTransfer.

Module Trace.

Definition emit {S} (e : event) : PyM.M (S * list event) unit :=
  PyM.modify (fun st => (fst st, (snd st ++ [e])%list)).

(** Run a computation on the first component of the store. *)
Definition on_store {S T A} (m : PyM.M S A) : PyM.M (S * T) A :=
  fun st => let '(r, s') := m (fst st) in (r, (s', snd st)).

Fixpoint foldM {S A B} (f : B -> A -> PyM.M S B) (l : list A) (b : B)
    : PyM.M S B :=
  match l with
  | [] => PyM.ret b
  | a :: l' => PyM.bind (f b a) (fun b' => foldM f l' b')
  end.

End Trace.

(** ** measure_spot_intensities (detect.py, lines 67-123) *)

(** Lines 113-121: one iteration of the loop over (c, r). *)
Definition fill_slice (data_image : ImageStack)
    (measurement_function : Measurement) (radius_is_gyration : bool)
    (intensity_table : IntensityTable) (cr : nat * nat)
    : PyM.M (DataFrame * list event) IntensityTable :=
  let '(c, r) := cr in
  run Trace.emit (EvGetSlice c r);
  let image := get_slice data_image c r in
  do blob_intensities <-
    Trace.on_store
      (measure_spot_intensity image measurement_function radius_is_gyration);
  do t <- PyM.lift (set_slice c r blob_intensities intensity_table);
  run Trace.emit (EvWriteSlice c r);
  PyM.ret t.

(** The store is the caller's [spot_attributes.data] and the trace. *)
Definition measure_spot_intensities (data_image : ImageStack)
    (measurement_function : Measurement) (radius_is_gyration : bool)
    : PyM.M (DataFrame * list event) IntensityTable :=
  let n_ch := shape_ch data_image in
  let n_round := shape_round data_image in
  do st <- PyM.get;
  let intensity_table :=
    empty_intensity_table {| data := fst st |} n_ch n_round in
  if n_features intensity_table =? 0 then PyM.ret intensity_table
  else
    let indices := list_prod (seq 0 n_ch) (seq 0 n_round) in
    Trace.foldM
      (fill_slice data_image measurement_function radius_is_gyration)
      indices intensity_table.

(** ** concatenate_spot_attributes_to_intensities (lines 126-162) *)

(** The indices a per-slice table is associated with
    ([Dict[Axes, int]] with the keys [Axes.CH] and [Axes.ROUND]). *)
Record Inds := { ind_ch : nat; ind_round : nat }.

Definition empty_max_message : string := "max() arg is an empty sequence".

(** The builtin [max] over a sequence. *)
Definition py_max (l : list nat) : result nat :=
  match l with
  | [] => Raise (ValueError empty_max_message)
  | x :: l' => Ok (fold_left Nat.max l' x)
  end.

Definition nan_series : Series := fun _ => NaN.

(** Rows of [a] followed by rows of [b]; a column missing from one of the
    two frames is NaN there. *)
Definition concat_two (a b : DataFrame) : DataFrame :=
  {| nrows := nrows a + nrows b;
     columns :=
       merge (fun oa ob =>
                match oa, ob with
                | None, None => None
                | _, _ =>
                    Some (fun i =>
                            if i <? nrows a then default nan_series oa i
                            else default nan_series ob (i - nrows a))
                end)
             (columns a) (columns b) |}.

(** [pd.concat(frames, sort=True)]. *)
Definition pd_concat (frames : list DataFrame) : result DataFrame :=
  match frames with
  | [] => Raise (ValueError "No objects to concatenate")
  | f :: fs => Ok (fold_left concat_two fs f)
  end.

(** [df.drop(labels, axis=1)]: KeyError when a label is not a column. *)
Fixpoint pd_drop (labels : list string) (df : DataFrame) : result DataFrame :=
  match labels with
  | [] => Ok df
  | l :: ls =>
      match columns df !! l with
      | None => Raise (KeyError l)
      | Some _ =>
          match pd_drop ls df with
          | Ok df' =>
              Ok {| nrows := nrows df'; columns := delete l (columns df') |}
          | Raise e => Raise e
          end
      end
  end.

(** Lines 158-160: one row of one per-slice table. *)
Definition write_row (attrs : SpotAttributes) (inds : Inds)
    (acc : nat * IntensityTable) (k : nat)
    : PyM.M (unit * list event) (nat * IntensityTable) :=
  let '(i, intensity_table) := acc in
  do col <- PyM.lift (column "intensity" (data attrs));
  do t <- PyM.lift
            (set_entry i (ind_ch inds) (ind_round inds) (col k) intensity_table);
  run Trace.emit (EvWrite i (ind_ch inds) (ind_round inds) (col k));
  PyM.ret (S i, t).

(** Lines 157-160: all rows of one per-slice table. *)
Definition write_rows (acc : nat * IntensityTable)
    (pair : SpotAttributes * Inds)
    : PyM.M (unit * list event) (nat * IntensityTable) :=
  let '(attrs, inds) := pair in
  Trace.foldM (write_row attrs inds) (seq 0 (nrows (data attrs))) acc.

Definition concatenate_spot_attributes_to_intensities
    (spot_attributes : list (SpotAttributes * Inds))
    : PyM.M (unit * list event) IntensityTable :=
  do m_ch <- PyM.lift (py_max (map (fun p => ind_ch (snd p)) spot_attributes));
  let n_ch := m_ch + 1 in
  do m_round <-
    PyM.lift (py_max (map (fun p => ind_round (snd p)) spot_attributes));
  let n_round := m_round + 1 in
  do all_spots <-
    PyM.lift (pd_concat (map (fun p => data (fst p)) spot_attributes));
  do features_coordinates <-
    PyM.lift (pd_drop ["spot_id"; "intensity"] all_spots);
  let intensity_table :=
    empty_intensity_table {| data := features_coordinates |} n_ch n_round in
  do acc <- Trace.foldM write_rows spot_attributes (0, intensity_table);
  PyM.ret (snd acc).

(** ** detect_spots (detect.py, lines 165-261) *)

Definition conflict_message : string :=
  "Please pass only one of reference_image and reference_image_from_max_projection".

Definition alignment_message : string :=
  "Detected tiles in the image stack that correspond to different positions "
  +:+ "in coordinate space. Please make sure your data are"
  +:+ "pre aligned, as per our spaceTx file format specification".

(** The spot finder, with its keyword arguments already bound. *)
Definition SpotFinder := ndarray -> callee SpotAttributes.

(** Run a computation that owns a table on a fresh store holding [s]. *)
Definition with_store {S A} (s : S) (m : PyM.M (S * list event) A)
    : PyM.M (unit * list event) A :=
  fun st => let '(r, st') := m (s, snd st) in (r, (tt, snd st')).

(** Modelled from the spec: [ImageStack.transform], which applies the
    function independently per group and collects (result, indices). *)
Definition transform (data_stack : ImageStack) (func : SpotFinder)
    : PyM.M (unit * list event) (list (SpotAttributes * Inds)) :=
  PyM.mapM
    (fun cr : nat * nat =>
       run Trace.emit EvFindSpots;
       do sa <- PyM.lift (of_callee (func (get_slice data_stack (fst cr) (snd cr))));
       PyM.ret (sa, {| ind_ch := fst cr; ind_round := snd cr |}))
    (tile_groups data_stack).

Section Detect.

(** The coordinate-transfer collaborator, which updates the side metadata
    of the table it is handed. *)
Variable transfer_physical_coords_from_imagestack_to_intensity_table :
  ImageStack -> IntensityTable -> callee IntensityTable.

(** Lines 234-256: the two paths. *)
Definition dispatch (data_stack : ImageStack)
    (spot_finding_method : SpotFinder)
    (reference_image : option ndarray)
    (measurement_function : Measurement) (radius_is_gyration : bool)
    : PyM.M (unit * list event) IntensityTable :=
  match reference_image with
  | Some ref =>
      if negb (tiles_aligned data_stack) then
        PyM.raise (ValueError alignment_message)
      else
        run Trace.emit EvFindSpots;
        do reference_spot_locations <-
          PyM.lift (of_callee (spot_finding_method ref));
        with_store (data reference_spot_locations)
          (measure_spot_intensities data_stack measurement_function
             radius_is_gyration)
  | None =>
      do spot_attributes_list <- transform data_stack spot_finding_method;
      concatenate_spot_attributes_to_intensities spot_attributes_list
  end.

Definition detect_spots (data_stack : ImageStack)
    (spot_finding_method : SpotFinder)
    (reference_image : option ndarray)
    (reference_image_from_max_projection : bool)
    (measurement_function : Measurement) (radius_is_gyration : bool)
    : PyM.M (unit * list event) IntensityTable :=
  if bool_decide (is_Some reference_image)
     && reference_image_from_max_projection
  then PyM.raise (ValueError conflict_message)
  else
    do reference_image <-
      (if reference_image_from_max_projection
       then run Trace.emit EvMaxProj; PyM.ret (Some (max_proj data_stack))
       else PyM.ret reference_image);
    do intensity_table <-
      dispatch data_stack spot_finding_method reference_image
        measurement_function radius_is_gyration;
    run Trace.emit EvTransfer;
    PyM.lift (of_callee
      (transfer_physical_coords_from_imagestack_to_intensity_table
         data_stack intensity_table)).

End Detect.

(** ** _get_measurement_function (_base.py, lines 29-37) *)

Definition dquote : string := String "034"%char EmptyString.

Definition unknown_statistic_message (measurement_type : string) : string :=
  "measurement_type must be a numpy reduce function such as "
  +:+ dquote +:+ "max" +:+ dquote +:+ " or "
  +:+ dquote +:+ "mean" +:+ dquote +:+ ". "
  +:+ measurement_type +:+ " not found.".

Section Lookup.

(** The attributes of the [numpy] module, by name. *)
Context {Attr : Type}.
Variable np : gmap string Attr.

(** [getattr(np, name)]: [None] stands for AttributeError. *)
Definition getattr (name : string) : option Attr := np !! name.

Definition _get_measurement_function (measurement_type : string)
    : result Attr :=
  match getattr measurement_type with
  | Some measurement_function => Ok measurement_function
  | None => Raise (ValueError (unknown_statistic_message measurement_type))
  end.

End Lookup.

(** ** Reductions of numpy used as statistics

    [numpy] is an external library; these two reductions are given so
    that the functions above can be run on concrete inputs. *)
Module Numpy.

(** All voxels of an array, in C order. *)
Definition flat (a : ndarray) : list cell :=
  let '(nz, ny, nx) := shape a in
  flat_map (fun i =>
    flat_map (fun j => map (fun k => voxel a i j k) (seq 0 nx)) (seq 0 ny))
    (seq 0 nz).

Definition cell_max (a b : cell) : cell :=
  match a, b with
  | Num x, Num y => if Qle_bool x y then Num y else Num x
  | _, _ => NaN
  end.

Definition cell_add (a b : cell) : cell :=
  match a, b with
  | Num x, Num y => Num (Qred (x + y))
  | _, _ => NaN
  end.

(** [np.max]: raises on an empty array. *)
Definition max : Measurement := fun a =>
  match flat a with
  | [] => inr {| exc_class := "ValueError";
                 exc_message := "zero-size array to reduction operation maximum which has no identity" |}
  | c :: cs => inl (fold_left cell_max cs c)
  end.

(** [np.sum]: zero on an empty array. *)
Definition sum : Measurement := fun a =>
  inl (fold_left cell_add (flat a) (Num 0)).

(** [np.mean]: NaN on an empty array. *)
Definition mean : Measurement := fun a =>
  match flat a with
  | [] => inl NaN
  | cs =>
      match fold_left cell_add cs (Num 0) with
      | Num s => inl (Num (Qred (s / inject_Z (Z.of_nat (length cs)))))
      | NaN => inl NaN
      end
  end.

(** A fragment of the module's namespace. *)
Definition namespace : gmap string Measurement :=
  <["max" := max]> (<["mean" := mean]> (<["sum" := sum]> ∅)).

End Numpy.

(** ** Sample data *)
Module Sample.

Definition const_series (q : Q) : Series := fun _ => Num q.

(** A table whose spots all sit at (z, y, x) with the given radius. *)
Definition spots_at (n : nat) (z y x radius : Q) : DataFrame :=
  {| nrows := n;
     columns :=
       <["z" := const_series z]> (<["y" := const_series y]>
       (<["x" := const_series x]> (<["radius" := const_series radius]> ∅))) |}.

(** A cube of side [n] whose voxel (i, j, k) holds 100 i + 10 j + k. *)
Definition cube (n : nat) : ndarray :=
  {| shape := (n, n, n);
     voxel := fun i j k => Num (inject_Z (Z.of_nat (100 * i + 10 * j + k))) |}.

Definition stack (n_ch n_round side : nat) : ImageStack :=
  {| shape_ch := n_ch; shape_round := n_round;
     get_slice := fun _ _ => cube side;
     tiles_aligned := true;
     max_proj := cube side;
     tile_groups := list_prod (seq 0 n_ch) (seq 0 n_round) |}.

(** A per-slice table of [n] detected spots, all of intensity [v]. *)
Definition found (n : nat) (v : Q) : SpotAttributes :=
  {| data :=
       {| nrows := n;
          columns :=
            <["spot_id" := fun i => Num (inject_Z (Z.of_nat i))]>
              (<["intensity" := const_series v]>
                 (columns (spots_at n 0 0 0 1))) |} |}.

(** Two slices, with two spots and one spot. *)
Definition found_pairs : list (SpotAttributes * Inds) :=
  [(found 2 7, {| ind_ch := 0; ind_round := 1 |});
   (found 1 9, {| ind_ch := 2; ind_round := 0 |})].

End Sample.

(** ** Closed forms used in the statements *)

(** A traversal in the plain error monad. *)
Fixpoint traverse {A B} (f : A -> result B) (l : list A) : result (list B) :=
  match l with
  | [] => Ok []
  | a :: l' =>
      match f a with
      | Ok b =>
          match traverse f l' with
          | Ok bs => Ok (b :: bs)
          | Raise e => Raise e
          end
      | Raise e => Raise e
      end
  end.

(** Lines 53-56 on one row. *)
Definition policy_radius (radius_is_gyration : bool) (r : cell) : Z :=
  if radius_is_gyration then (cell_trunc (cell_ceil r) + 1)%Z
  else cell_trunc r.

(** A table that has the four columns the measurement reads, all finite. *)
Record has_spots (df : DataFrame) (rad cz cy cx : Series) : Prop := {
  spots_radius : columns df !! "radius" = Some rad;
  spots_z : columns df !! "z" = Some cz;
  spots_y : columns df !! "y" = Some cy;
  spots_x : columns df !! "x" = Some cx;
  spots_finite : forall i, i < nrows df ->
    is_num (rad i) = true /\ is_num (cz i) = true /\
    is_num (cy i) = true /\ is_num (cx i) = true
}.

Section Boxes.
Variables (image : ndarray) (radius_is_gyration : bool).
Variables rad cz cy cx : Series.

Let R (i : nat) : Z := policy_radius radius_is_gyration (rad i).

Definition box_of (i : nat) : bbox :=
  let '(nz, ny, nx) := shape image in
  {| z_min := cell_trunc (box_min (R i) (cz i));
     z_max := cell_trunc (box_max nz (R i) (cz i));
     y_min := cell_trunc (box_min (R i) (cy i));
     y_max := cell_trunc (box_max ny (R i) (cy i));
     x_min := cell_trunc (box_min (R i) (cx i));
     x_max := cell_trunc (box_max nx (R i) (cx i)) |}.

(** The table once the six columns have been assigned. *)
Definition with_boxes (df : DataFrame) : DataFrame :=
  let '(nz, ny, nx) := shape image in
  set_column "x_max" (fun i => box_max nx (R i) (cx i))
   (set_column "x_min" (fun i => box_min (R i) (cx i))
    (set_column "y_max" (fun i => box_max ny (R i) (cy i))
     (set_column "y_min" (fun i => box_min (R i) (cy i))
      (set_column "z_max" (fun i => box_max nz (R i) (cz i))
       (set_column "z_min" (fun i => box_min (R i) (cz i)) df))))).

End Boxes.

(** The columns that [measure_spot_intensity] assigns. *)
Definition bbox_columns : list string :=
  ["z_min"; "z_max"; "y_min"; "y_max"; "x_min"; "x_max"].

(** [df'] has the rows of [df] and agrees with it on every column that is
    not a bounding-box column. *)
Definition same_but_boxes (df df' : DataFrame) : Prop :=
  nrows df' = nrows df /\
  forall name, ~ In name bbox_columns ->
    columns df' !! name = columns df !! name.

(** A computation whose every run leaves the table the same but for the
    bounding-box columns. *)
Definition touches_only_boxes {A} (m : PyM.M DataFrame A) : Prop :=
  forall df, same_but_boxes df (snd (m df)).



(** The number a statistic returned, for a call that did return. *)
Definition value_of (r : callee cell) : cell :=
  match r with inl v => v | inr _ => NaN end.



(** What one iteration of the loop of [measure_spot_intensities] logs. *)
Definition slice_events (cr : nat * nat) : list event :=
  [EvGetSlice (fst cr) (snd cr); EvWriteSlice (fst cr) (snd cr)].

(** The intensity of spot [i] in slice [(c, r)], for a table whose
    radius and centre columns are [rad], [cz], [cy], [cx]. *)
Definition spot_value_at (data_image : ImageStack) (mf : Measurement)
    (gyr : bool) (rad cz cy cx : Series) (c r i : nat) : cell :=
  let image := get_slice data_image c r in
  value_of (mf (crop image (box_of image gyr rad cz cy cx i))).

(** Whether the pair occurs in the list. *)
Definition pair_in (cr : nat * nat) (l : list (nat * nat)) : bool :=
  existsb (fun p => (fst p =? fst cr) && (snd p =? snd cr)) l.

(** The [intensity] column of a per-slice table (NaN where missing). *)
Definition intensity_of (attrs : SpotAttributes) : Series :=
  default nan_series (columns (data attrs) !! "intensity").

(** The rows of one per-slice table, each with the indices of its slice
    and its intensity. *)
Definition rows_of (pair : SpotAttributes * Inds) : list (Inds * cell) :=
  map (fun k => (snd pair, intensity_of (fst pair) k))
      (seq 0 (nrows (data (fst pair)))).

(** All rows of all per-slice tables, in input order. *)
Definition stamped_rows (pairs : list (SpotAttributes * Inds))
    : list (Inds * cell) :=
  flat_map rows_of pairs.

(** One [EvWrite] per row, the first at row index [i]. *)
Fixpoint write_events (i : nat) (rows : list (Inds * cell)) : list event :=
  match rows with
  | [] => []
  | (inds, v) :: rest =>
      EvWrite i (ind_ch inds) (ind_round inds) v :: write_events (S i) rest
  end.

(** The tensor [old] after row [i0 + k] received the intensity of the
    [k]-th row at that row's channel and round. *)
Definition overlay (i0 : nat) (rows : list (Inds * cell))
    (old : nat -> nat -> nat -> cell) (i c r : nat) : cell :=
  if i <? i0 then old i c r
  else
    match nth_error rows (i - i0) with
    | Some (inds, v) =>
        if (c =? ind_ch inds) && (r =? ind_round inds) then v
        else old i c r
    | None => old i c r
    end.



(** A per-slice table as the spot finders produce it: with a spot
    identifier and an intensity per row. *)
Definition detected (pair : SpotAttributes * Inds) : Prop :=
  (exists s, columns (data (fst pair)) !! "spot_id" = Some s) /\
  (exists s, columns (data (fst pair)) !! "intensity" = Some s).

(** Every exception a run of [m] can end with satisfies [P]. *)
Definition raises_only {S A} (P : exn -> Prop) (m : PyM.M S A) : Prop :=
  forall s e, fst (m s) = Raise e -> P e.

(** The same for a plain result. *)
Definition fails_only {A} (P : exn -> Prop) (r : result A) : Prop :=
  forall e, r = Raise e -> P e.

(** Anything but the configuration-conflict error of [detect_spots]. *)
Definition not_conflict (e : exn) : Prop := e <> ValueError conflict_message.

(** What [np.max] raises on an empty array. *)
Definition zero_size_error : foreign_exception :=
  {| exc_class := "ValueError";
     exc_message := "zero-size array to reduction operation maximum which has no identity" |}.



(** An event of the loop of [measure_spot_intensities]. *)
Definition is_slice_event (e : event) : Prop :=
  match e with
  | EvGetSlice _ _ | EvWriteSlice _ _ => True
  | _ => False
  end.

(** From store [st] to store [st']: the table is the same but for the
    bounding-box columns, and the trace grew by slice events only. *)
Definition slice_step (st st' : DataFrame * list event) : Prop :=
  same_but_boxes (fst st) (fst st') /\
  exists new, snd st' = (snd st ++ new)%list /\ Forall is_slice_event new.

(** A computation whose every run, returning or raising, is such a step. *)
Definition slice_steps {A} (m : PyM.M (DataFrame * list event) A) : Prop :=
  forall st, slice_step st (snd (m st)).

(** What the spot finder returned for one (channel, round) group, with
    the indices of the group (an empty table stands for a raise). *)
Definition found_in (data_stack : ImageStack) (finder : SpotFinder)
    (cr : nat * nat) : SpotAttributes * Inds :=
  (match finder (get_slice data_stack (fst cr) (snd cr)) with
   | inl sa => sa
   | inr _ => {| data := {| nrows := 0; columns := ∅ |} |}
   end,
   {| ind_ch := fst cr; ind_round := snd cr |}).

(** Row [i] of column [name] in the concatenation of the frames: the
    value in the frame the row comes from, NaN where that frame has no
    such column. *)
Fixpoint concat_cell (frames : list DataFrame) (name : string) (i : nat)
    : cell :=
  match frames with
  | [] => NaN
  | f :: fs =>
      if i <? nrows f then default nan_series (columns f !! name) i
      else concat_cell fs name (i - nrows f)
  end.

(** ** The decoder registry (core/spots/DecodeSpots/__init__.py) *)

Section Registry.

(** Python objects, with [isinstance(o, type)] and [issubclass]. *)
Context {Obj : Type}.
Variable is_type : Obj -> bool.
Variable issubclass : Obj -> Obj -> bool.

(** The class imported at line 1. *)
Variable DecodeSpotsAlgorithm : Obj.

(** Lines 5-9: the names of the module bound to decoder classes.  The
    dictionary [locals()] is given as its items, in binding order. *)
Definition all_filters (locals : list (string * Obj)) : list (string * Obj) :=
  List.filter
    (fun item => is_type (snd item) && issubclass (snd item) DecodeSpotsAlgorithm)
    locals.

(** Line 10. *)
Definition __all__ (locals : list (string * Obj)) : list string :=
  map fst (all_filters locals).

End Registry.

(** A small universe of objects: classes with the names of their proper
    ancestors, and everything else. *)
Module SampleDecoders.

Inductive pyobj :=
| PyClass (name : string) (ancestors : list string)
| PyOther.

Definition is_type (o : pyobj) : bool :=
  match o with PyClass _ _ => true | PyOther => false end.

Definition issubclass (c d : pyobj) : bool :=
  match c, d with
  | PyClass n ancestors, PyClass m _ =>
      String.eqb n m || existsb (String.eqb m) ancestors
  | _, _ => false
  end.

Definition base : pyobj := PyClass "DecodeSpotsAlgorithm" [].

Definition locals : list (string * pyobj) :=
  [("__name__", PyOther);
   ("_base", PyOther);
   ("DecodeSpotsAlgorithm", base);
   ("per_round_max_channel_decoder", PyOther);
   ("PerRoundMaxChannel", PyClass "PerRoundMaxChannel" ["DecodeSpotsAlgorithm"])].

End SampleDecoders.

(** * Verification *)

(** ** Truncation, floor and ceiling *)
Section Rounding.
Local Open Scope Z_scope.
















End Rounding.

(** ** Running the monad *)
Section Running.
Context {S A B : Type}.

Lemma bind_ok (m : PyM.M S A) (k : A -> PyM.M S B) s a s' :
  m s = (Ok a, s') -> PyM.bind m k s = k a s'.
Proof. intros H. unfold PyM.bind. rewrite H. reflexivity. Qed.

Lemma bind_raise (m : PyM.M S A) (k : A -> PyM.M S B) s e s' :
  m s = (Raise e, s') -> PyM.bind m k s = (Raise e, s').
Proof. intros H. unfold PyM.bind. rewrite H. reflexivity. Qed.

End Running.

Lemma mapM_lift {S A B} (f : A -> result B) (l : list A) (s : S) :
  PyM.mapM (fun a => PyM.lift (f a)) l s = (traverse f l, s).
Proof.
  induction l as [|a l IH]; [reflexivity|].
  simpl. unfold PyM.bind, PyM.lift at 1.
  destruct (f a) as [b|e]; [|reflexivity].
  rewrite IH. destruct (traverse f l); reflexivity.
Qed.

Lemma traverse_ok {A B} (f : A -> result B) (g : A -> B) (l : list A) :
  (forall a, In a l -> f a = Ok (g a)) -> traverse f l = Ok (map g l).
Proof.
  induction l as [|a l IH]; intros H; [reflexivity|].
  simpl. rewrite (H a) by (left; reflexivity).
  rewrite IH by (intros; apply H; right; assumption). reflexivity.
Qed.

Lemma astype_int_ok n (s : Series) :
  (forall i, i < n -> is_num (s i) = true) ->
  astype_int n s = Ok (fun i => cell_trunc (s i)).
Proof.
  intros H. unfold astype_int.
  replace (forallb (fun i => is_num (s i)) (seq 0 n)) with true; [reflexivity|].
  symmetry. apply forallb_forall. intros i Hi. apply in_seq in Hi.
  apply H. lia.
Qed.

Lemma is_num_box_min R c : is_num c = true -> is_num (box_min R c) = true.
Proof.
  destruct c; [|discriminate]. intros _. unfold box_min, clip_lower; simpl.
  destruct (Qle_bool _ _); reflexivity.
Qed.

Lemma is_num_box_max n R c : is_num c = true -> is_num (box_max n R c) = true.
Proof.
  destruct c; [|discriminate]. intros _. unfold box_max, clip_upper; simpl.
  destruct (Qle_bool _ _); reflexivity.
Qed.

Lemma is_num_ceil c : is_num c = true -> is_num (cell_ceil c) = true.
Proof. destruct c; [reflexivity|discriminate]. Qed.

(** The six column names, computed. *)
Ltac column_names :=
  change ("z" +:+ "_min") with "z_min" in *;
  change ("z" +:+ "_max") with "z_max" in *;
  change ("y" +:+ "_min") with "y_min" in *;
  change ("y" +:+ "_max") with "y_max" in *;
  change ("x" +:+ "_min") with "x_min" in *;
  change ("x" +:+ "_max") with "x_max" in *.

Lemma box_radius_run gyr df rad cz cy cx :
  has_spots df rad cz cy cx ->
  box_radius gyr df = (Ok (fun i => policy_radius gyr (rad i)), df).
Proof.
  intros [Hr _ _ _ Hfin]. unfold box_radius, PyM.bind, PyM.get, getitem, column.
  destruct gyr; rewrite Hr; unfold PyM.lift.
  - rewrite astype_int_ok; [reflexivity|].
    intros i Hi. apply is_num_ceil. destruct (Hfin i Hi) as (? & ? & ? & ?); assumption.
  - rewrite astype_int_ok; [reflexivity|].
    intros i Hi. destruct (Hfin i Hi) as (? & ? & ? & ?); assumption.
Qed.

Lemma spot_boxes_run image gyr df rad cz cy cx :
  has_spots df rad cz cy cx ->
  spot_boxes image gyr df =
    (Ok (box_of image gyr rad cz cy cx),
     with_boxes image gyr rad cz cy cx df).
Proof.
  intros Hs. unfold spot_boxes.
  rewrite (bind_ok _ _ _ _ _ (box_radius_run gyr _ _ _ _ _ Hs)).
  destruct Hs as [Hr Hz Hy Hx Hfin].
  unfold box_of, with_boxes, axes_of. destruct (shape image) as [[nz ny] nx].
  unfold PyM.forM_, box_axis, box_table, PyM.bind, PyM.ret, PyM.get, getitem,
    setitem, PyM.modify, column, set_column, PyM.lift.
  column_names.
  repeat (first [ rewrite Hz | rewrite Hy | rewrite Hx
                | rewrite lookup_insert_eq
                | rewrite lookup_insert_ne by done
                | progress cbn [nrows columns] ]).
  rewrite !astype_int_ok;
    try (intros i Hi; destruct (Hfin i Hi) as (? & ? & ? & ?);
         first [apply is_num_box_min | apply is_num_box_max]; assumption).
  reflexivity.
Qed.

Lemma nrows_with_boxes image gyr rad cz cy cx df :
  nrows (with_boxes image gyr rad cz cy cx df) = nrows df.
Proof. unfold with_boxes. destruct (shape image) as [[nz ny] nx]. reflexivity. Qed.

Lemma measure_spot_intensity_run image mf gyr df rad cz cy cx :
  has_spots df rad cz cy cx ->
  measure_spot_intensity image mf gyr df =
    (traverse (fun i => fn image mf (box_of image gyr rad cz cy cx i))
              (seq 0 (nrows df)),
     with_boxes image gyr rad cz cy cx df).
Proof.
  intros Hs. unfold measure_spot_intensity.
  rewrite (bind_ok _ _ _ _ _ (spot_boxes_run image gyr _ _ _ _ _ Hs)).
  unfold PyM.bind at 1, PyM.get at 1.
  rewrite mapM_lift, nrows_with_boxes. reflexivity.
Qed.

(** The four columns read by the measurement survive it, so the table
    can be measured again. *)
Lemma has_spots_with_boxes image gyr df rad cz cy cx :
  has_spots df rad cz cy cx ->
  has_spots (with_boxes image gyr rad cz cy cx df) rad cz cy cx.
Proof.
  intros [Hr Hz Hy Hx Hfin].
  assert (Hn := nrows_with_boxes image gyr rad cz cy cx df).
  unfold with_boxes in *. destruct (shape image) as [[nz ny] nx].
  unfold set_column in *; cbn [nrows columns] in *.
  split; cbn [nrows columns];
    try (rewrite !lookup_insert_ne by done; assumption).
  exact Hfin.
Qed.

(** ** Frame of [measure_spot_intensity] *)

Lemma same_but_boxes_refl df : same_but_boxes df df.
Proof. split; [reflexivity|]. intros; reflexivity. Qed.

Lemma same_but_boxes_trans a b c :
  same_but_boxes a b -> same_but_boxes b c -> same_but_boxes a c.
Proof.
  intros [H1 H2] [H3 H4]. split; [congruence|].
  intros name Hn. rewrite H4, H2 by assumption. reflexivity.
Qed.

Lemma touches_ret {A} (a : A) : touches_only_boxes (PyM.ret a).
Proof. intros df. apply same_but_boxes_refl. Qed.

Lemma touches_get : touches_only_boxes PyM.get.
Proof. intros df. apply same_but_boxes_refl. Qed.

Lemma touches_lift {A} (r : result A) : touches_only_boxes (PyM.lift r).
Proof. intros df. apply same_but_boxes_refl. Qed.

Lemma touches_getitem name : touches_only_boxes (getitem name).
Proof. intros df. apply same_but_boxes_refl. Qed.

Lemma touches_setitem name s :
  In name bbox_columns -> touches_only_boxes (setitem name s).
Proof.
  intros Hin df. split; [reflexivity|].
  intros other Ho. unfold setitem, PyM.modify, set_column; cbn.
  apply lookup_insert_ne. intros ->. contradiction.
Qed.

Lemma touches_bind {A B} (m : PyM.M DataFrame A) (k : A -> PyM.M DataFrame B) :
  touches_only_boxes m -> (forall a, touches_only_boxes (k a)) ->
  touches_only_boxes (PyM.bind m k).
Proof.
  intros Hm Hk df. unfold PyM.bind. specialize (Hm df).
  destruct (m df) as [[a|e] df1]; cbn in *; [|exact Hm].
  eapply same_but_boxes_trans; [exact Hm|]. apply Hk.
Qed.

Lemma touches_forM_ {A} (l : list A) (f : A -> PyM.M DataFrame unit) :
  (forall a, In a l -> touches_only_boxes (f a)) ->
  touches_only_boxes (PyM.forM_ l f).
Proof.
  induction l as [|a l IH]; intros H; [apply touches_ret|].
  simpl. apply touches_bind; [apply H; left; reflexivity|].
  intros _. apply IH. intros; apply H; right; assumption.
Qed.

Lemma touches_mapM {A B} (f : A -> PyM.M DataFrame B) (l : list A) :
  (forall a, touches_only_boxes (f a)) -> touches_only_boxes (PyM.mapM f l).
Proof.
  intros H. induction l as [|a l IH]; [apply touches_ret|].
  simpl. apply touches_bind; [apply H|]. intros b.
  apply touches_bind; [exact IH|]. intros bs. apply touches_ret.
Qed.

Lemma touches_box_radius gyr : touches_only_boxes (box_radius gyr).
Proof.
  unfold box_radius. apply touches_bind; [apply touches_get|]. intros df.
  destruct gyr.
  - apply touches_bind; [apply touches_getitem|]. intros col.
    apply touches_bind; [apply touches_lift|]. intros r. apply touches_ret.
  - apply touches_bind; [apply touches_getitem|]. intros col.
    apply touches_lift.
Qed.

Lemma touches_box_axis radius image axis :
  In axis (axes_of image) -> touches_only_boxes (box_axis radius axis).
Proof.
  unfold axes_of. destruct (shape image) as [[nz ny] nx].
  intros Hin. unfold box_axis.
  assert (In (fst axis +:+ "_min") bbox_columns /\
          In (fst axis +:+ "_max") bbox_columns) as [Hlo Hhi].
  { simpl in Hin. destruct Hin as [<-|[<-|[<-|[]]]]; cbn [fst];
      column_names; unfold bbox_columns; simpl; tauto. }
  destruct axis as [v n]; cbn [fst] in *.
  apply touches_bind; [apply touches_getitem|]. intros c.
  apply touches_bind; [apply touches_setitem, Hlo|]. intros _.
  apply touches_bind; [apply touches_getitem|]. intros c'.
  apply touches_setitem, Hhi.
Qed.

Lemma touches_box_table : touches_only_boxes box_table.
Proof.
  unfold box_table.
  repeat (apply touches_bind;
          [first [apply touches_get | apply touches_getitem | apply touches_lift]
          | intros ?]).
  apply touches_ret.
Qed.

Lemma touches_measure_spot_intensity image mf gyr :
  touches_only_boxes (measure_spot_intensity image mf gyr).
Proof.
  unfold measure_spot_intensity, spot_boxes.
  apply touches_bind.
  - apply touches_bind; [apply touches_box_radius|]. intros radius.
    apply touches_bind; [|intros _; apply touches_box_table].
    apply touches_forM_. intros a Ha. apply touches_box_axis with image, Ha.
  - intros boxes. apply touches_bind; [apply touches_get|]. intros df.
    apply touches_mapM. intros i. apply touches_lift.
Qed.

(** ** Claims about [measure_spot_intensity] *)

Lemma lookup_with_boxes image gyr rad cz cy cx df nz ny nx :
  shape image = (nz, ny, nx) ->
  let R i := policy_radius gyr (rad i) in
  let df' := with_boxes image gyr rad cz cy cx df in
  columns df' !! "z_min" = Some (fun i => box_min (R i) (cz i)) /\
  columns df' !! "z_max" = Some (fun i => box_max nz (R i) (cz i)) /\
  columns df' !! "y_min" = Some (fun i => box_min (R i) (cy i)) /\
  columns df' !! "y_max" = Some (fun i => box_max ny (R i) (cy i)) /\
  columns df' !! "x_min" = Some (fun i => box_min (R i) (cx i)) /\
  columns df' !! "x_max" = Some (fun i => box_max nx (R i) (cx i)).
Proof.
  intros Hsh. unfold with_boxes. rewrite Hsh.
  unfold set_column; cbn [nrows columns].
  repeat split;
    repeat (first [ rewrite lookup_insert_eq
                  | rewrite lookup_insert_ne by done ]); reflexivity.
Qed.



(** A table and an image on which the statement above applies. *)
Lemma sample_has_spots n z y x r :
  has_spots (Sample.spots_at n z y x r)
    (Sample.const_series r) (Sample.const_series z)
    (Sample.const_series y) (Sample.const_series x).
Proof.
  split; try reflexivity. intros i _. repeat split.
Qed.









(** After a successful call the table handed in is no longer what it was:
    the column [z_min], absent before, is present. *)
Lemma bounding_box_columns_persist :
  let df := Sample.spots_at 1 0 0 0 5 in
  let out := measure_spot_intensity (Sample.cube 10) Numpy.max false df in
  (exists l, fst out = Ok l) /\
  columns df !! "z_min" = None /\
  (exists s, columns (snd out) !! "z_min" = Some s) /\
  snd out <> df.
Proof.
  cbv zeta.
  rewrite (measure_spot_intensity_run _ _ _ _ _ _ _ _
             (sample_has_spots 1 0 0 0 5)).
  cbn [fst snd].
  assert (Hnone : columns (Sample.spots_at 1 0 0 0 5) !! "z_min" = None)
    by (vm_compute; reflexivity).
  destruct (lookup_with_boxes (Sample.cube 10) false
              (Sample.const_series 5) (Sample.const_series 0)
              (Sample.const_series 0) (Sample.const_series 0)
              (Sample.spots_at 1 0 0 0 5) 10 10 10 eq_refl) as [Hsome _].
  split; [eexists; vm_compute; reflexivity|].
  split; [exact Hnone|]. split; [eexists; exact Hsome|].
  intros Heq. cbv zeta in Hsome. rewrite Heq in Hsome.
  pose proof (eq_trans (eq_sym Hsome) Hnone) as Habs. discriminate Habs.
Qed.

(** C5, amended. [measure_spot_intensity] leaves the row count and every
    column other than the six bounding-box columns as they were, in
    particular the coordinates and the radius; the six bounding-box
    columns it assigns stay in the caller's table after the call. *)
Theorem measure_spot_intensity_frame image mf gyr df :
  let df' := snd (measure_spot_intensity image mf gyr df) in
  nrows df' = nrows df /\
  (forall name, ~ In name bbox_columns ->
     columns df' !! name = columns df !! name) /\
  (columns df' !! "z" = columns df !! "z" /\
   columns df' !! "y" = columns df !! "y" /\
   columns df' !! "x" = columns df !! "x" /\
   columns df' !! "radius" = columns df !! "radius") /\
  (forall rad cz cy cx, has_spots df rad cz cy cx ->
     forall name, In name bbox_columns ->
       exists s, columns df' !! name = Some s).
Proof.
  intros df'.
  destruct (touches_measure_spot_intensity image mf gyr df) as [Hn Hf].
  fold df' in Hn, Hf.
  split; [exact Hn|]. split; [exact Hf|]. split.
  { repeat split; apply Hf; unfold bbox_columns; simpl;
      intros H; repeat destruct H as [H|H]; try discriminate H; exact H. }
  intros rad cz cy cx Hs name Hin. subst df'.
  rewrite (measure_spot_intensity_run image mf gyr _ _ _ _ _ Hs). cbn [snd].
  destruct (shape image) as [[nz ny] nx] eqn:Hsh.
  destruct (lookup_with_boxes image gyr rad cz cy cx df nz ny nx Hsh)
    as (H1 & H2 & H3 & H4 & H5 & H6).
  unfold bbox_columns in Hin. simpl in Hin.
  destruct Hin as [<-|[<-|[<-|[<-|[<-|[<-|[]]]]]]]; eexists; eassumption.
Qed.

Lemma measure_spot_intensity_frame_witness :
  exists s,
    columns (snd (measure_spot_intensity (Sample.cube 10) Numpy.max false
                    (Sample.spots_at 1 0 0 0 5))) !! "x_max" = Some s.
Proof.
  refine (proj2 (proj2 (proj2 (measure_spot_intensity_frame
    (Sample.cube 10) Numpy.max false (Sample.spots_at 1 0 0 0 5))))
    _ _ _ _ (sample_has_spots 1 0 0 0 5) "x_max" _).
  unfold bbox_columns; simpl; tauto.
Defined.

(** ** The reference-image path *)

Section Reference.
Variables (data_image : ImageStack) (mf : Measurement) (gyr : bool).
Variables rad cz cy cx : Series.
Hypothesis mf_returns : forall a, exists v, mf a = inl v.

Local Abbreviation spot_value := (spot_value_at data_image mf gyr rad cz cy cx).

Lemma fn_returns image b : fn image mf b = Ok (value_of (mf (crop image b))).
Proof.
  unfold fn. destruct (mf_returns (crop image b)) as [v Hv].
  rewrite Hv. reflexivity.
Qed.

Lemma fill_slice_run t c r df tr :
  has_spots df rad cz cy cx ->
  nrows df = n_features t ->
  c < n_ch t -> r < n_round t ->
  exists t',
    fill_slice data_image mf gyr t (c, r) (df, tr) =
      (Ok t',
       (with_boxes (get_slice data_image c r) gyr rad cz cy cx df,
        (tr ++ slice_events (c, r))%list)) /\
    features t' = features t /\ n_ch t' = n_ch t /\ n_round t' = n_round t /\
    forall i' c' r',
      values t' i' c' r' =
        if (i' <? nrows df) && (c' =? c) && (r' =? r)
        then spot_value c r i' else values t i' c' r'.
Proof.
  intros Hs Hn Hc Hr.
  unfold fill_slice, PyM.bind, Trace.emit, PyM.modify, Trace.on_store,
    PyM.lift, PyM.ret. cbn [fst snd].
  rewrite (measure_spot_intensity_run _ mf gyr _ _ _ _ _ Hs).
  rewrite (traverse_ok _ (fun i => spot_value c r i))
    by (intros i _; apply fn_returns).
  unfold set_slice.
  apply Nat.ltb_lt in Hc, Hr. rewrite Hc, Hr. cbn [andb].
  rewrite length_map, length_seq, Hn, Nat.eqb_refl.
  eexists. split.
  { cbn [fst snd]. rewrite <- app_assoc. reflexivity. }
  cbn [features n_ch n_round values]. repeat split.
  intros i' c' r'. rewrite <- Hn.
  destruct (i' <? nrows df) eqn:Hi; cbn [andb]; [|reflexivity].
  destruct ((c' =? c) && (r' =? r)); [|reflexivity].
  apply Nat.ltb_lt in Hi.
  rewrite (nth_indep _ NaN (spot_value c r 0)) by (rewrite length_map, length_seq; exact Hi).
  rewrite (map_nth (fun i => spot_value c r i)), seq_nth by exact Hi.
  reflexivity.
Qed.

Lemma fill_slices_run l : forall t df tr,
  has_spots df rad cz cy cx ->
  nrows df = n_features t ->
  (forall c r, In (c, r) l -> c < n_ch t /\ r < n_round t) ->
  exists t' df',
    Trace.foldM (fill_slice data_image mf gyr) l t (df, tr) =
      (Ok t', (df', (tr ++ flat_map slice_events l)%list)) /\
    has_spots df' rad cz cy cx /\ nrows df' = nrows df /\
    features t' = features t /\ n_ch t' = n_ch t /\ n_round t' = n_round t /\
    forall i c r,
      values t' i c r =
        if (i <? nrows df) && pair_in (c, r) l
        then spot_value c r i else values t i c r.
Proof.
  induction l as [|[c r] l IH]; intros t df tr Hs Hn Hl.
  - exists t, df. cbn [Trace.foldM flat_map]. rewrite app_nil_r.
    split; [reflexivity|]. split; [exact Hs|].
    do 4 (split; [reflexivity|]).
    intros i c r. cbn [pair_in existsb]. rewrite andb_false_r. reflexivity.
  - destruct (Hl c r (or_introl eq_refl)) as [Hc Hr].
    destruct (fill_slice_run t c r df tr Hs Hn Hc Hr)
      as (t1 & Hrun & Hf1 & Hc1 & Hr1 & Hv1).
    set (df1 := with_boxes (get_slice data_image c r) gyr rad cz cy cx df) in *.
    assert (Hs1 : has_spots df1 rad cz cy cx) by (apply has_spots_with_boxes, Hs).
    assert (Hn1 : nrows df1 = n_features t1).
    { unfold df1, n_features. rewrite nrows_with_boxes, Hf1. exact Hn. }
    destruct (IH t1 df1 (tr ++ slice_events (c, r))%list Hs1 Hn1)
      as (t' & df' & Hrun' & Hs' & Hn' & Hf' & Hc' & Hr' & Hv').
    { intros c0 r0 Hin. rewrite Hc1, Hr1. apply Hl. right. exact Hin. }
    exists t', df'. split.
    { cbn [Trace.foldM flat_map]. unfold PyM.bind at 1. rewrite Hrun.
      rewrite Hrun', <- app_assoc. reflexivity. }
    split; [exact Hs'|]. split.
    { rewrite Hn'. apply nrows_with_boxes. }
    split; [congruence|]. split; [congruence|]. split; [congruence|].
    intros i c0 r0. rewrite Hv', Hv1.
    unfold df1. rewrite nrows_with_boxes. cbn [pair_in existsb fst snd].
    destruct (i <? nrows df); cbn [andb]; [|reflexivity].
    destruct (pair_in (c0, r0) l) eqn:Hp.
    + unfold pair_in in Hp. cbn [fst snd] in Hp.
      rewrite Hp, orb_true_r. reflexivity.
    + unfold pair_in in Hp. cbn [fst snd] in Hp. rewrite Hp, orb_false_r.
      rewrite (Nat.eqb_sym c c0), (Nat.eqb_sym r r0).
      destruct ((c0 =? c) && (r0 =? r)) eqn:E; [|reflexivity].
      apply andb_true_iff in E. destruct E as [E1 E2].
      apply Nat.eqb_eq in E1, E2. subst. reflexivity.
Qed.

End Reference.

Lemma pair_in_iff cr l : pair_in cr l = true <-> In cr l.
Proof.
  unfold pair_in. rewrite existsb_exists. split.
  - intros [p [Hin Hp]]. apply andb_true_iff in Hp. destruct Hp as [H1 H2].
    apply Nat.eqb_eq in H1, H2. destruct p, cr; cbn in *; subst. exact Hin.
  - intros Hin. exists cr. split; [exact Hin|].
    rewrite !Nat.eqb_refl. reflexivity.
Qed.




Lemma no_spots_run data_image mf gyr df tr :
  nrows df = 0 ->
  exists t,
    measure_spot_intensities data_image mf gyr (df, tr) = (Ok t, (df, tr)) /\
    features t = df /\
    n_ch t = shape_ch data_image /\
    n_round t = shape_round data_image /\
    (forall i c r, values t i c r = NaN).
Proof.
  intros Hn. unfold measure_spot_intensities, PyM.bind, PyM.get.
  cbn [fst snd]. unfold n_features at 1.
  cbn [features empty_intensity_table data].
  rewrite Hn. cbn [Nat.eqb]. eexists. split; [reflexivity|].
  cbn. repeat split.
Qed.

(** C9. With zero spots the reference path returns at once: nothing is
    read or written (the table of spots and the trace are untouched), and
    the table returned has zero spot rows and the channel and round
    extents of the volume. *)
Theorem measure_spot_intensities_no_spots data_image mf gyr df tr :
  nrows df = 0 ->
  exists t,
    measure_spot_intensities data_image mf gyr (df, tr) = (Ok t, (df, tr)) /\
    n_features t = 0 /\
    n_ch t = shape_ch data_image /\
    n_round t = shape_round data_image /\
    (forall i c r, values t i c r = NaN).
Proof.
  intros Hn.
  destruct (no_spots_run data_image mf gyr df tr Hn)
    as (t & Hrun & Hf & Hc & Hr & Hv).
  exists t. split; [exact Hrun|]. split; [|auto].
  unfold n_features. rewrite Hf. exact Hn.
Qed.

Lemma measure_spot_intensities_no_spots_witness :
  exists t,
    measure_spot_intensities (Sample.stack 2 3 10) Numpy.max false
      (Sample.spots_at 0 0 0 0 5, []) =
      (Ok t, (Sample.spots_at 0 0 0 0 5, [])) /\
    n_features t = 0 /\ n_ch t = 2 /\ n_round t = 3 /\
    (forall i c r, values t i c r = NaN).
Proof.
  exact (measure_spot_intensities_no_spots (Sample.stack 2 3 10) Numpy.max
           false (Sample.spots_at 0 0 0 0 5) [] eq_refl).
Defined.



(** ** The independent-detection path *)

Lemma py_max_spec x l :
  exists m, py_max (x :: l) = Ok m /\ In m (x :: l) /\
            forall y, In y (x :: l) -> y <= m.
Proof.
  unfold py_max. eexists. split; [reflexivity|].
  revert x. induction l as [|a l IH]; intros x; cbn [fold_left].
  - split; [left; reflexivity|]. intros y [<-|[]]. lia.
  - destruct (IH (Nat.max x a)) as [Hin Hle]. split.
    + destruct Hin as [Hin|Hin]; [|right; right; exact Hin].
      rewrite <- Hin. destruct (Nat.max_dec x a) as [->| ->].
      * left; reflexivity.
      * right; left; reflexivity.
    + pose proof (Hle (Nat.max x a) (or_introl eq_refl)) as Hm.
      intros y [Hy|[Hy|Hy]]; [lia|lia|].
      apply Hle. right. exact Hy.
Qed.

Lemma concat_two_keeps a b l s :
  columns a !! l = Some s -> exists s', columns (concat_two a b) !! l = Some s'.
Proof.
  intros H. unfold concat_two. cbn [columns]. rewrite lookup_merge, H.
  destruct (columns b !! l); eexists; reflexivity.
Qed.

Lemma concat_keeps fs : forall f l s,
  columns f !! l = Some s ->
  exists s', columns (fold_left concat_two fs f) !! l = Some s'.
Proof.
  induction fs as [|b fs IH]; intros f l s H; cbn [fold_left].
  - eexists; exact H.
  - destruct (concat_two_keeps f b l s H) as [s' Hs']. eapply IH, Hs'.
Qed.

Lemma concat_nrows fs : forall f,
  nrows (fold_left concat_two fs f) = nrows f + list_sum (map nrows fs).
Proof.
  induction fs as [|b fs IH]; intros f; simpl.
  - lia.
  - rewrite IH. simpl. lia.
Qed.

Lemma pd_drop_ok labels df :
  (forall l, In l labels -> exists s, columns df !! l = Some s) ->
  exists df', pd_drop labels df = Ok df' /\ nrows df' = nrows df.
Proof.
  induction labels as [|l ls IH]; intros H; cbn [pd_drop].
  - eexists; split; reflexivity.
  - destruct (H l (or_introl eq_refl)) as [s Hs]. rewrite Hs.
    destruct IH as (df' & Hd & Hn); [intros; apply H; right; assumption|].
    rewrite Hd. eexists; split; [reflexivity|]. exact Hn.
Qed.

Lemma overlay_ext i0 rows f g i c r :
  (forall i c r, f i c r = g i c r) ->
  overlay i0 rows f i c r = overlay i0 rows g i c r.
Proof.
  intros H. unfold overlay. rewrite !H. destruct (i <? i0); [reflexivity|].
  destruct (nth_error rows (i - i0)) as [[inds v]|]; reflexivity.
Qed.

Lemma overlay_cons i0 row rows old i c r :
  overlay (S i0) rows (overlay i0 [row] old) i c r
  = overlay i0 (row :: rows) old i c r.
Proof.
  unfold overlay. destruct row as [inds v].
  destruct (i <? i0) eqn:E0.
  - apply Nat.ltb_lt in E0.
    replace (i <? S i0) with true by (symmetry; apply Nat.ltb_lt; lia).
    reflexivity.
  - apply Nat.ltb_ge in E0. destruct (i <? S i0) eqn:E1.
    + apply Nat.ltb_lt in E1. replace (i - i0) with 0 by lia. reflexivity.
    + apply Nat.ltb_ge in E1. replace (i - i0) with (S (i - S i0)) by lia.
      cbn [nth_error].
      assert (Hnil : forall k, nth_error (@nil (Inds * cell)) k = None)
        by (intros []; reflexivity).
      rewrite Hnil.
      destruct (nth_error rows (i - S i0)) as [[inds' v']|]; reflexivity.
Qed.

Lemma overlay_app r1 : forall i0 r2 old i c r,
  overlay (i0 + length r1) r2 (overlay i0 r1 old) i c r
  = overlay i0 (r1 ++ r2) old i c r.
Proof.
  induction r1 as [|row r1 IH]; intros i0 r2 old i c r.
  - cbn [length app]. rewrite Nat.add_0_r.
    apply overlay_ext. intros i' c' r'. unfold overlay.
    destruct (i' <? i0); [reflexivity|].
    destruct (i' - i0); reflexivity.
  - cbn [length app]. rewrite <- overlay_cons.
    replace (i0 + S (length r1)) with (S i0 + length r1) by lia.
    rewrite <- IH. apply overlay_ext. intros i' c' r'.
    symmetry. apply overlay_cons.
Qed.

Lemma write_events_app r1 : forall i0 r2,
  write_events i0 (r1 ++ r2)
  = (write_events i0 r1 ++ write_events (i0 + length r1) r2)%list.
Proof.
  induction r1 as [|[inds v] r1 IH]; intros i0 r2; cbn [write_events app length].
  - rewrite Nat.add_0_r. reflexivity.
  - rewrite IH. replace (S i0 + length r1) with (i0 + S (length r1)) by lia.
    reflexivity.
Qed.

Lemma write_row_loop attrs inds (col : Series) ks : forall i0 t tr,
  columns (data attrs) !! "intensity" = Some col ->
  i0 + length ks <= n_features t ->
  ind_ch inds < n_ch t -> ind_round inds < n_round t ->
  let rows := map (fun k => (inds, col k)) ks in
  exists t',
    Trace.foldM (write_row attrs inds) ks (i0, t) (tt, tr) =
      (Ok (i0 + length ks, t'), (tt, (tr ++ write_events i0 rows)%list)) /\
    features t' = features t /\ n_ch t' = n_ch t /\ n_round t' = n_round t /\
    forall i c r, values t' i c r = overlay i0 rows (values t) i c r.
Proof.
  induction ks as [|k ks IH]; intros i0 t tr Hcol Hlen Hc Hr rows.
  - exists t. cbn. rewrite Nat.add_0_r, app_nil_r. repeat split.
    intros i c r. unfold overlay. destruct (i <? i0); [reflexivity|].
    destruct (i - i0); reflexivity.
  - cbn [length] in Hlen.
    assert (Hset : exists t1,
      set_entry i0 (ind_ch inds) (ind_round inds) (col k) t = Ok t1 /\
      features t1 = features t /\ n_ch t1 = n_ch t /\ n_round t1 = n_round t /\
      forall i c r, values t1 i c r = overlay i0 [(inds, col k)] (values t) i c r).
    { unfold set_entry.
      replace (i0 <? n_features t) with true by (symmetry; apply Nat.ltb_lt; lia).
      replace (ind_ch inds <? n_ch t) with true by (symmetry; apply Nat.ltb_lt; lia).
      replace (ind_round inds <? n_round t) with true
        by (symmetry; apply Nat.ltb_lt; lia).
      cbn [andb]. eexists. split; [reflexivity|]. cbn. repeat split.
      intros i c r. unfold overlay.
      destruct (i =? i0) eqn:E.
      - apply Nat.eqb_eq in E. subst i. rewrite Nat.ltb_irrefl, Nat.sub_diag.
        cbn. reflexivity.
      - apply Nat.eqb_neq in E. cbn [andb].
        destruct (i <? i0) eqn:E0; [reflexivity|]. apply Nat.ltb_ge in E0.
        destruct (i - i0) as [|d] eqn:Ed; [lia|]. cbn. destruct d; reflexivity. }
    destruct Hset as (t1 & Hset & Hf1 & Hc1 & Hr1 & Hv1).
    destruct (IH (S i0) t1 (tr ++ [EvWrite i0 (ind_ch inds) (ind_round inds) (col k)])%list Hcol)
      as (t' & Hrun & Hf' & Hc' & Hr' & Hv'); try (unfold n_features in *; rewrite ?Hf1; lia).
    exists t'. split.
    { cbn [Trace.foldM]. unfold PyM.bind at 1.
      unfold write_row at 1, PyM.bind, PyM.lift, column. rewrite Hcol, Hset.
      unfold Trace.emit, PyM.modify, PyM.ret. cbn [fst snd].
      rewrite Hrun. subst rows. cbn [map write_events length].
      rewrite <- app_assoc. cbn [app].
      replace (S i0 + length ks) with (i0 + S (length ks)) by lia. reflexivity. }
    split; [congruence|]. split; [congruence|]. split; [congruence|].
    intros i c r. rewrite Hv'. subst rows. cbn [map].
    rewrite <- overlay_cons. apply overlay_ext. exact Hv1.
Qed.

Lemma length_rows_of p : length (rows_of p) = nrows (data (fst p)).
Proof. unfold rows_of. rewrite length_map, length_seq. reflexivity. Qed.

Lemma length_stamped_rows pairs :
  length (stamped_rows pairs)
  = list_sum (map (fun p => nrows (data (fst p))) pairs).
Proof.
  induction pairs as [|p ps IH]; [reflexivity|].
  unfold stamped_rows in *. cbn [flat_map map]. simpl list_sum.
  rewrite length_app, length_rows_of, IH. reflexivity.
Qed.

Lemma write_rows_loop pairs : forall i0 t tr,
  Forall detected pairs ->
  i0 + length (stamped_rows pairs) <= n_features t ->
  (forall p, In p pairs ->
     ind_ch (snd p) < n_ch t /\ ind_round (snd p) < n_round t) ->
  exists t',
    Trace.foldM write_rows pairs (i0, t) (tt, tr) =
      (Ok (i0 + length (stamped_rows pairs), t'),
       (tt, (tr ++ write_events i0 (stamped_rows pairs))%list)) /\
    features t' = features t /\ n_ch t' = n_ch t /\ n_round t' = n_round t /\
    forall i c r,
      values t' i c r = overlay i0 (stamped_rows pairs) (values t) i c r.
Proof.
  induction pairs as [|[attrs inds] ps IH]; intros i0 t tr Hdet Hlen Hin.
  - exists t. cbn. rewrite Nat.add_0_r, app_nil_r. repeat split.
    intros i c r. unfold overlay. destruct (i <? i0); [reflexivity|].
    destruct (i - i0); reflexivity.
  - inversion Hdet as [|? ? [_ [col Hcol]] Hdet']; subst.
    cbn [fst snd] in Hcol.
    unfold stamped_rows in *. cbn [flat_map] in *.
    rewrite length_app, length_rows_of in Hlen. cbn [fst] in Hlen.
    destruct (Hin (attrs, inds) (or_introl eq_refl)) as [Hc Hr].
    cbn [snd] in Hc, Hr.
    assert (Hrows : rows_of (attrs, inds)
                    = map (fun k => (inds, col k)) (seq 0 (nrows (data attrs)))).
    { unfold rows_of, intensity_of. cbn [fst snd]. rewrite Hcol. reflexivity. }
    destruct (write_row_loop attrs inds col (seq 0 (nrows (data attrs)))
                i0 t tr Hcol) as (t1 & Hrun1 & Hf1 & Hc1 & Hr1 & Hv1);
      try assumption; [rewrite length_seq; lia|].
    rewrite length_seq in Hrun1. rewrite <- Hrows in Hrun1, Hv1.
    destruct (IH (i0 + nrows (data attrs)) t1
                 (tr ++ write_events i0 (rows_of (attrs, inds)))%list Hdet')
      as (t' & Hrun & Hf' & Hc' & Hr' & Hv').
    { unfold n_features in *. rewrite Hf1. lia. }
    { intros p Hp. rewrite Hc1, Hr1. apply Hin. right. exact Hp. }
    exists t'. split.
    { cbn [Trace.foldM]. unfold PyM.bind at 1. unfold write_rows at 1.
      rewrite Hrun1, Hrun.
      rewrite length_app, length_rows_of, write_events_app, length_rows_of.
      cbn [fst]. rewrite <- app_assoc, Nat.add_assoc. reflexivity. }
    split; [congruence|]. split; [congruence|]. split; [congruence|].
    intros i c r. rewrite Hv'. rewrite <- overlay_app, length_rows_of.
    cbn [fst]. apply overlay_ext. exact Hv1.
Qed.

Lemma concatenate_run p ps tr :
  Forall detected (p :: ps) ->
  exists t,
    concatenate_spot_attributes_to_intensities (p :: ps) (tt, tr) =
      (Ok t, (tt, (tr ++ write_events 0 (stamped_rows (p :: ps)))%list)) /\
    n_features t = length (stamped_rows (p :: ps)) /\
    (exists q, In q (p :: ps) /\ n_ch t = ind_ch (snd q) + 1) /\
    (forall q, In q (p :: ps) -> ind_ch (snd q) < n_ch t) /\
    (exists q, In q (p :: ps) /\ n_round t = ind_round (snd q) + 1) /\
    (forall q, In q (p :: ps) -> ind_round (snd q) < n_round t) /\
    forall i c r,
      values t i c r
      = overlay 0 (stamped_rows (p :: ps)) (fun _ _ _ => NaN) i c r.
Proof.
  intros Hdet. set (pairs := p :: ps) in *.
  destruct (py_max_spec (ind_ch (snd p)) (map (fun q => ind_ch (snd q)) ps))
    as (m_ch & Hmch & Hch_in & Hch_le).
  destruct (py_max_spec (ind_round (snd p)) (map (fun q => ind_round (snd q)) ps))
    as (m_r & Hmr & Hr_in & Hr_le).
  change (ind_ch (snd p) :: map (fun q => ind_ch (snd q)) ps)
    with (map (fun q => ind_ch (snd q)) pairs) in *.
  change (ind_round (snd p) :: map (fun q => ind_round (snd q)) ps)
    with (map (fun q => ind_round (snd q)) pairs) in *.
  set (all_spots := fold_left concat_two (map (fun q => data (fst q)) ps)
                      (data (fst p))).
  assert (Hhead : detected p) by (inversion Hdet; assumption).
  destruct Hhead as [[sid Hsid] [sint Hsint]].
  destruct (pd_drop_ok ["spot_id"; "intensity"] all_spots) as (fc & Hdrop & Hfc).
  { intros l [<-|[<-|[]]]; unfold all_spots.
    - eapply concat_keeps, Hsid.
    - eapply concat_keeps, Hsint. }
  set (t0 := empty_intensity_table {| data := fc |} (m_ch + 1) (m_r + 1)).
  assert (Hn0 : n_features t0 = length (stamped_rows pairs)).
  { unfold n_features, t0. cbn [features empty_intensity_table data].
    rewrite Hfc. unfold all_spots. rewrite concat_nrows, length_stamped_rows.
    unfold pairs. simpl list_sum. rewrite map_map. reflexivity. }
  destruct (write_rows_loop pairs 0 t0 tr Hdet) as (t & Hrun & Hf & Hc & Hr & Hv).
  { rewrite Hn0. lia. }
  { intros q Hq. cbn [t0 empty_intensity_table n_ch n_round]. split.
    - assert (ind_ch (snd q) <= m_ch); [|lia].
      apply Hch_le. apply (in_map (fun q => ind_ch (snd q))), Hq.
    - assert (ind_round (snd q) <= m_r); [|lia].
      apply Hr_le. apply (in_map (fun q => ind_round (snd q))), Hq. }
  cbn [t0 empty_intensity_table n_ch n_round features values] in Hf, Hc, Hr.
  exists t. split.
  { unfold concatenate_spot_attributes_to_intensities.
    unfold PyM.bind at 1, PyM.lift at 1. rewrite Hmch.
    unfold PyM.bind at 1, PyM.lift at 1. rewrite Hmr.
    unfold PyM.bind at 1, PyM.lift at 1. unfold pairs at 1. cbn [map pd_concat fst].
    fold all_spots.
    unfold PyM.bind at 1, PyM.lift at 1. rewrite Hdrop. fold t0.
    unfold PyM.bind at 1. rewrite Hrun. reflexivity. }
  split; [unfold n_features in *; rewrite Hf; exact Hn0|].
  rewrite Hc, Hr. split.
  { apply in_map_iff in Hch_in. destruct Hch_in as (q & Hq & Hin).
    exists q. split; [exact Hin|]. lia. }
  split.
  { intros q Hq. assert (ind_ch (snd q) <= m_ch); [|lia].
    apply Hch_le. apply (in_map (fun q => ind_ch (snd q))), Hq. }
  split.
  { apply in_map_iff in Hr_in. destruct Hr_in as (q & Hq & Hin).
    exists q. split; [exact Hin|]. lia. }
  split.
  { intros q Hq. assert (ind_round (snd q) <= m_r); [|lia].
    apply Hr_le. apply (in_map (fun q => ind_round (snd q))), Hq. }
  intros i c r. rewrite Hv. reflexivity.
Qed.




(** C7. With an empty sequence of per-slice results the maximum of the
    channel indices is undefined: the call raises, at once, and no table
    is produced. *)
Theorem concatenate_empty_fails st :
  concatenate_spot_attributes_to_intensities [] st
  = (Raise (ValueError empty_max_message), st).
Proof. reflexivity. Qed.


Lemma sample_detected : Forall detected Sample.found_pairs.
Proof.
  repeat constructor; eexists; vm_compute; reflexivity.
Qed.




(** ** _get_measurement_function *)

Lemma append_assoc (a b c : string) : (a +:+ b) +:+ c = a +:+ (b +:+ c).
Proof.
  induction a as [|x a IH]; [reflexivity|].
  change (String x ((a +:+ b) +:+ c) = String x (a +:+ (b +:+ c))).
  f_equal. exact IH.
Qed.

(** C8. A name that is not an attribute of [numpy] makes the lookup raise
    an error whose message contains the name; the lookup takes nothing but
    the name, so it fails before any measurement could begin.  A name that
    is an attribute, such as "max" or "mean", is returned as found. *)
Theorem get_measurement_function_lookup
    {Attr : Type} (np : gmap string Attr) (name : string) :
  (np !! name = None ->
     _get_measurement_function np name
       = Raise (ValueError (unknown_statistic_message name)) /\
     exists before after,
       unknown_statistic_message name = before +:+ name +:+ after) /\
  (forall f, np !! name = Some f ->
     _get_measurement_function np name = Ok f) /\
  (forall fmax fmean,
     np !! "max" = Some fmax -> np !! "mean" = Some fmean ->
     _get_measurement_function np "max" = Ok fmax /\
     _get_measurement_function np "mean" = Ok fmean).
Proof.
  unfold _get_measurement_function, getattr. split; [|split].
  - intros H. rewrite H. split; [reflexivity|].
    unfold unknown_statistic_message.
    exists ("measurement_type must be a numpy reduce function such as "
            +:+ dquote +:+ "max" +:+ dquote +:+ " or "
            +:+ dquote +:+ "mean" +:+ dquote +:+ ". "), " not found.".
    rewrite !append_assoc. reflexivity.
  - intros f H. rewrite H. reflexivity.
  - intros fmax fmean H1 H2. rewrite H1, H2. split; reflexivity.
Qed.

Lemma get_measurement_function_lookup_witness :
  _get_measurement_function Numpy.namespace "median"
    = Raise (ValueError (unknown_statistic_message "median")) /\
  _get_measurement_function Numpy.namespace "max" = Ok Numpy.max /\
  _get_measurement_function Numpy.namespace "mean" = Ok Numpy.mean.
Proof.
  split.
  - exact (proj1 (proj1 (get_measurement_function_lookup
                           Numpy.namespace "median") eq_refl)).
  - exact (proj2 (proj2 (get_measurement_function_lookup
                           Numpy.namespace "max"))
             Numpy.max Numpy.mean eq_refl eq_refl).
Defined.

(** ** Which exceptions can escape *)

Section RaisesOnly.
Variable P : exn -> Prop.

Lemma raises_ret {S A} (a : A) : raises_only P (@PyM.ret S A a).
Proof. intros s e H. discriminate H. Qed.

Lemma raises_get {S} : raises_only P (@PyM.get S).
Proof. intros s e H. discriminate H. Qed.

Lemma raises_modify {S} (f : S -> S) : raises_only P (PyM.modify f).
Proof. intros s e H. discriminate H. Qed.

Lemma raises_raise {S A} e0 : P e0 -> raises_only P (@PyM.raise S A e0).
Proof. intros H s e He. inversion He; subst. exact H. Qed.

Lemma raises_lift {S A} (r : result A) :
  fails_only P r -> raises_only P (@PyM.lift S A r).
Proof. intros H s e He. apply H. exact He. Qed.

Lemma raises_bind {S A B} (m : PyM.M S A) (k : A -> PyM.M S B) :
  raises_only P m -> (forall a, raises_only P (k a)) ->
  raises_only P (PyM.bind m k).
Proof.
  intros Hm Hk s e. unfold PyM.bind. specialize (Hm s).
  destruct (m s) as [[a|e0] s']; cbn [fst] in *.
  - apply Hk.
  - intros He. inversion He; subst. apply Hm. reflexivity.
Qed.

Lemma raises_mapM {S A B} (f : A -> PyM.M S B) (l : list A) :
  (forall a, raises_only P (f a)) -> raises_only P (PyM.mapM f l).
Proof.
  intros H. induction l as [|a l IH]; [apply raises_ret|].
  cbn [PyM.mapM]. apply raises_bind; [apply H|]. intros b.
  apply raises_bind; [exact IH|]. intros bs. apply raises_ret.
Qed.

Lemma raises_forM_ {S A} (l : list A) (f : A -> PyM.M S unit) :
  (forall a, raises_only P (f a)) -> raises_only P (PyM.forM_ l f).
Proof.
  intros H. induction l as [|a l IH]; [apply raises_ret|].
  cbn [PyM.forM_]. apply raises_bind; [apply H|]. intros _. exact IH.
Qed.

Lemma raises_foldM {S A B} (f : B -> A -> PyM.M S B) (l : list A) :
  (forall b a, raises_only P (f b a)) ->
  forall b, raises_only P (Trace.foldM f l b).
Proof.
  intros H. induction l as [|a l IH]; intros b; [apply raises_ret|].
  cbn [Trace.foldM]. apply raises_bind; [apply H|]. intros b'. apply IH.
Qed.

Lemma raises_on_store {S T A} (m : PyM.M S A) :
  raises_only P m -> raises_only P (@Trace.on_store S T A m).
Proof.
  intros H s e. unfold Trace.on_store. specialize (H (fst s)).
  destruct (m (fst s)) as [r s']. exact (H e).
Qed.

Lemma raises_with_store {S A} (s0 : S) (m : PyM.M (S * list event) A) :
  raises_only P m -> raises_only P (with_store s0 m).
Proof.
  intros H s e. unfold with_store. specialize (H (s0, snd s)).
  destruct (m (s0, snd s)) as [r s']. exact (H e).
Qed.

Lemma raises_emit {S} ev : raises_only P (@Trace.emit S ev).
Proof. apply raises_modify. Qed.

Lemma fails_of_callee {A} (r : callee A) :
  (forall e, P (Propagated e)) -> fails_only P (of_callee r).
Proof. intros H e He. destruct r; inversion He. apply H. Qed.

Lemma fails_ok {A} (a : A) : fails_only P (Ok a).
Proof. intros e He. discriminate He. Qed.

End RaisesOnly.

(** Decide that a concrete exception is not the conflict error. *)
Ltac not_conflict :=
  let H := fresh in
  unfold not_conflict; intros H; vm_compute in H; discriminate H.

Lemma astype_int_not_conflict n s : fails_only not_conflict (astype_int n s).
Proof.
  unfold astype_int. destruct (forallb _ _); intros e He; inversion He.
  not_conflict.
Qed.

Lemma column_not_conflict name df : fails_only not_conflict (column name df).
Proof.
  unfold column. destruct (_ !! _); intros e He; inversion He.
  unfold not_conflict. discriminate.
Qed.

Lemma getitem_not_conflict name : raises_only not_conflict (getitem name).
Proof. intros df e He. exact (column_not_conflict name df e He). Qed.

Lemma callee_not_conflict {A} (r : callee A) : fails_only not_conflict (of_callee r).
Proof. apply fails_of_callee. intros e. unfold not_conflict. discriminate. Qed.

Lemma measure_spot_intensity_not_conflict image mf gyr :
  raises_only not_conflict (measure_spot_intensity image mf gyr).
Proof.
  unfold measure_spot_intensity, spot_boxes, box_radius, box_table.
  repeat first
    [ apply raises_bind; [|intros ?]
    | apply raises_get | apply raises_ret
    | apply getitem_not_conflict
    | apply raises_lift, astype_int_not_conflict
    | match goal with |- raises_only _ (if ?b then _ else _) => destruct b end ].
  - apply raises_forM_. intros [v n]. unfold box_axis, setitem.
    repeat first
      [ apply raises_bind; [|intros ?]
      | apply getitem_not_conflict | apply raises_modify ].
  - apply raises_mapM. intros i. apply raises_lift. unfold fn.
    apply callee_not_conflict.
Qed.

Lemma set_slice_not_conflict c r vs t : fails_only not_conflict (set_slice c r vs t).
Proof.
  unfold set_slice. destruct (_ && _); [destruct (_ =? _)|];
    intros e He; inversion He; not_conflict.
Qed.

Lemma set_entry_not_conflict i c r v t : fails_only not_conflict (set_entry i c r v t).
Proof.
  unfold set_entry. destruct (_ && _); intros e He; inversion He; not_conflict.
Qed.

Lemma measure_spot_intensities_not_conflict data_image mf gyr :
  raises_only not_conflict (measure_spot_intensities data_image mf gyr).
Proof.
  unfold measure_spot_intensities.
  apply raises_bind; [apply raises_get|]. intros st.
  destruct (_ =? _); [apply raises_ret|].
  apply raises_foldM. intros t [c r]. unfold fill_slice.
  apply raises_bind; [apply raises_emit|]. intros _.
  apply raises_bind;
    [apply raises_on_store, measure_spot_intensity_not_conflict|]. intros blob.
  apply raises_bind; [apply raises_lift, set_slice_not_conflict|]. intros t'.
  apply raises_bind; [apply raises_emit|]. intros _. apply raises_ret.
Qed.

Lemma py_max_not_conflict l : fails_only not_conflict (py_max l).
Proof. destruct l; intros e He; inversion He. not_conflict. Qed.

Lemma pd_concat_not_conflict l : fails_only not_conflict (pd_concat l).
Proof. destruct l; intros e He; inversion He. not_conflict. Qed.

Lemma pd_drop_not_conflict labels df : fails_only not_conflict (pd_drop labels df).
Proof.
  induction labels as [|l ls IH]; cbn [pd_drop]; [apply fails_ok|].
  destruct (_ !! _).
  - destruct (pd_drop ls df) as [df'|e0]; [apply fails_ok|].
    intros e He. inversion He; subst. apply IH. reflexivity.
  - intros e He. inversion He. unfold not_conflict. discriminate.
Qed.

Lemma concatenate_not_conflict pairs :
  raises_only not_conflict (concatenate_spot_attributes_to_intensities pairs).
Proof.
  unfold concatenate_spot_attributes_to_intensities.
  apply raises_bind; [apply raises_lift, py_max_not_conflict|]. intros m_ch.
  apply raises_bind; [apply raises_lift, py_max_not_conflict|]. intros m_r.
  apply raises_bind; [apply raises_lift, pd_concat_not_conflict|]. intros all.
  apply raises_bind; [apply raises_lift, pd_drop_not_conflict|]. intros fc.
  apply raises_bind; [|intros acc; apply raises_ret].
  apply raises_foldM. intros acc [attrs inds]. unfold write_rows.
  apply raises_foldM. intros [i t] k. unfold write_row.
  apply raises_bind; [apply raises_lift, column_not_conflict|]. intros col.
  apply raises_bind; [apply raises_lift, set_entry_not_conflict|]. intros t'.
  apply raises_bind; [apply raises_emit|]. intros _. apply raises_ret.
Qed.

Lemma transform_not_conflict data_stack finder :
  raises_only not_conflict (transform data_stack finder).
Proof.
  unfold transform. apply raises_mapM. intros cr.
  apply raises_bind; [apply raises_emit|]. intros _.
  apply raises_bind; [apply raises_lift, callee_not_conflict|]. intros sa.
  apply raises_ret.
Qed.

Lemma dispatch_not_conflict data_stack finder ref mf gyr :
  raises_only not_conflict (dispatch data_stack finder ref mf gyr).
Proof.
  unfold dispatch. destruct ref as [image|].
  - destruct (negb _); [apply raises_raise; not_conflict|].
    apply raises_bind; [apply raises_emit|]. intros _.
    apply raises_bind; [apply raises_lift, callee_not_conflict|]. intros locs.
    apply raises_with_store, measure_spot_intensities_not_conflict.
  - apply raises_bind; [apply transform_not_conflict|]. intros l.
    apply concatenate_not_conflict.
Qed.

(** C6. With both an explicit reference image and the max-projection
    flag, [detect_spots] raises the configuration-conflict error at once:
    the store is unchanged, so no collaborator was called and no table was
    produced.  With at most one of the two, whatever happens, that error
    is not raised. *)
Theorem detect_spots_conflict
    transfer data_stack finder (reference_image : option ndarray)
    (from_max_projection : bool) mf gyr st :
  (forall image, reference_image = Some image -> from_max_projection = true ->
     detect_spots transfer data_stack finder reference_image
       from_max_projection mf gyr st
     = (Raise (ValueError conflict_message), st)) /\
  (reference_image = None \/ from_max_projection = false ->
     fst (detect_spots transfer data_stack finder reference_image
            from_max_projection mf gyr st)
     <> Raise (ValueError conflict_message)).
Proof.
  split.
  - intros image -> ->. reflexivity.
  - intros Hone Hraise.
    assert (Hguard : bool_decide (is_Some reference_image) && from_max_projection
                     = false).
    { destruct Hone as [-> | ->]; [reflexivity|apply andb_false_r]. }
    unfold detect_spots in Hraise. rewrite Hguard in Hraise.
    revert Hraise.
    match goal with |- fst (?m st) = _ -> _ =>
      assert (H : raises_only not_conflict m) end.
    { apply raises_bind.
      - destruct from_max_projection.
        + apply raises_bind; [apply raises_emit|]. intros _. apply raises_ret.
        + apply raises_ret.
      - intros ref. apply raises_bind; [apply dispatch_not_conflict|].
        intros t. apply raises_bind; [apply raises_emit|]. intros _.
        apply raises_lift, callee_not_conflict. }
    intros Hraise. exact (H st _ Hraise eq_refl).
Qed.

Lemma detect_spots_conflict_witness :
  let transfer := fun (_ : ImageStack) (t : IntensityTable) => inl t in
  let finder := fun _ : ndarray =>
    inl {| data := Sample.spots_at 1 0 0 0 5 |} in
  detect_spots transfer (Sample.stack 2 3 10) finder
    (Some (Sample.cube 10)) true Numpy.max false (tt, [])
  = (Raise (ValueError conflict_message), (tt, [])) /\
  fst (detect_spots transfer (Sample.stack 2 3 10) finder
         (Some (Sample.cube 10)) false Numpy.max false (tt, []))
  <> Raise (ValueError conflict_message).
Proof.
  intros transfer finder. split.
  - exact (proj1 (detect_spots_conflict transfer (Sample.stack 2 3 10) finder
                    (Some (Sample.cube 10)) true Numpy.max false (tt, []))
             (Sample.cube 10) eq_refl eq_refl).
  - exact (proj2 (detect_spots_conflict transfer (Sample.stack 2 3 10) finder
                    (Some (Sample.cube 10)) false Numpy.max false (tt, []))
             (or_intror eq_refl)).
Defined.

(** ** The window that is measured *)

Section Window.
Local Open Scope Z_scope.





End Window.














Lemma traverse_length {A B} (f : A -> result B) (l : list A) bs :
  traverse f l = Ok bs -> length bs = length l.
Proof.
  revert bs. induction l as [|a l IH]; intros bs H; cbn in H.
  - inversion H. reflexivity.
  - destruct (f a); [|discriminate H].
    destruct (traverse f l) as [bs'|]; [|discriminate H].
    inversion H. cbn. f_equal. apply IH. reflexivity.
Qed.








(** ** Repeated measurements *)

Lemma with_boxes_twice image1 gyr1 image2 gyr2 rad cz cy cx df :
  with_boxes image2 gyr2 rad cz cy cx (with_boxes image1 gyr1 rad cz cy cx df)
  = with_boxes image2 gyr2 rad cz cy cx df.
Proof.
  unfold with_boxes.
  destruct (shape image1) as [[nz1 ny1] nx1].
  destruct (shape image2) as [[nz2 ny2] nx2].
  unfold set_column. cbn [nrows columns]. f_equal.
  apply map_eq. intros name. rewrite !lookup_insert.
  repeat case_decide; congruence.
Qed.

(** X5. A measurement fully overwrites what an earlier measurement left
    in the table: measuring a table that was measured before, on the same
    or another image, with the same or another statistic or policy, gives
    the intensities and the final table that measuring the original table
    gives.  In particular measuring twice is the same as measuring once. *)
Theorem second_measurement_overwrites
    image1 mf1 gyr1 image2 mf2 gyr2 df rad cz cy cx :
  has_spots df rad cz cy cx ->
  measure_spot_intensity image2 mf2 gyr2
    (snd (measure_spot_intensity image1 mf1 gyr1 df))
  = measure_spot_intensity image2 mf2 gyr2 df.
Proof.
  intros Hs.
  rewrite (measure_spot_intensity_run image1 mf1 gyr1 _ _ _ _ _ Hs). cbn [snd].
  rewrite (measure_spot_intensity_run image2 mf2 gyr2 _ _ _ _ _
             (has_spots_with_boxes image1 gyr1 _ _ _ _ _ Hs)).
  rewrite (measure_spot_intensity_run image2 mf2 gyr2 _ _ _ _ _ Hs).
  rewrite nrows_with_boxes, with_boxes_twice. reflexivity.
Qed.

Lemma second_measurement_overwrites_witness :
  measure_spot_intensity (Sample.cube 10) Numpy.sum true
    (snd (measure_spot_intensity (Sample.cube 50) Numpy.max false
            (Sample.spots_at 2 3 4 5 2)))
  = measure_spot_intensity (Sample.cube 10) Numpy.sum true
      (Sample.spots_at 2 3 4 5 2).
Proof.
  exact (second_measurement_overwrites (Sample.cube 50) Numpy.max false
           (Sample.cube 10) Numpy.sum true (Sample.spots_at 2 3 4 5 2)
           _ _ _ _ (sample_has_spots 2 3 4 5 2)).
Defined.

(** ** Malformed tables *)

Lemma astype_int_nan n (s : Series) i :
  i < n -> s i = NaN -> astype_int n s = Raise (ValueError nan_cast_message).
Proof.
  intros Hi Hs. unfold astype_int.
  destruct (forallb (fun i => is_num (s i)) (seq 0 n)) eqn:E; [|reflexivity].
  rewrite forallb_forall in E. specialize (E i).
  rewrite Hs in E. discriminate E. apply in_seq. lia.
Qed.




(** X7. A NaN radius in any row makes the measurement raise the integer
    cast error before anything is assigned: the table is untouched and the
    statistic is not consulted. *)
Theorem nan_radius_raises_value_error image mf gyr df (rad : Series) i :
  columns df !! "radius" = Some rad ->
  i < nrows df -> rad i = NaN ->
  measure_spot_intensity image mf gyr df
    = (Raise (ValueError nan_cast_message), df).
Proof.
  intros Hr Hi Hnan.
  unfold measure_spot_intensity, spot_boxes, box_radius,
    PyM.bind, PyM.get, getitem, column, PyM.lift.
  destruct gyr; rewrite Hr.
  - rewrite (astype_int_nan _ _ i Hi); [reflexivity|].
    rewrite Hnan. reflexivity.
  - rewrite (astype_int_nan _ _ i Hi Hnan). reflexivity.
Qed.

Lemma nan_radius_raises_value_error_witness :
  let df := {| nrows := 1; columns := <["radius" := nan_series]> ∅ |} in
  measure_spot_intensity (Sample.cube 10) Numpy.max true df
    = (Raise (ValueError nan_cast_message), df).
Proof.
  intros df.
  exact (nan_radius_raises_value_error (Sample.cube 10) Numpy.max true df
           nan_series 0 eq_refl ltac:(cbn; lia) eq_refl).
Defined.

(** ** A statistic that raises *)

Lemma traverse_first_raise {A B} (f : A -> result B) (l1 : list A) a l2 e :
  (forall x, In x l1 -> exists b, f x = Ok b) ->
  f a = Raise e ->
  traverse f (l1 ++ a :: l2) = Raise e.
Proof.
  intros Hok Hraise. induction l1 as [|x l1 IH]; cbn.
  - rewrite Hraise. reflexivity.
  - destruct (Hok x (or_introl eq_refl)) as [b Hb]. rewrite Hb.
    rewrite IH; [reflexivity|]. intros y Hy. apply Hok. right. exact Hy.
Qed.

Lemma seq_split_at i n :
  i < n -> seq 0 n = (seq 0 i ++ i :: seq (S i) (n - S i))%list.
Proof.
  intros H. replace n with (i + S (n - S i)) at 1 by lia.
  rewrite seq_app. cbn. reflexivity.
Qed.

(** X8. If the statistic returns on the rows before row [i] and raises
    on row [i], the measurement raises that very exception, rows after
    [i] are not measured (their outcome is irrelevant), and the table is
    left as the box computation left it. *)
Theorem statistic_failure_propagates
    image mf gyr df rad cz cy cx i (e : foreign_exception) :
  has_spots df rad cz cy cx ->
  i < nrows df ->
  (forall j, j < i ->
     exists v, mf (crop image (box_of image gyr rad cz cy cx j)) = inl v) ->
  mf (crop image (box_of image gyr rad cz cy cx i)) = inr e ->
  fst (spot_boxes image gyr df) = Ok (box_of image gyr rad cz cy cx) /\
  measure_spot_intensity image mf gyr df
    = (Raise (Propagated e), snd (spot_boxes image gyr df)).
Proof.
  intros Hs Hi Hbefore Hraise.
  rewrite (measure_spot_intensity_run image mf gyr _ _ _ _ _ Hs).
  rewrite (spot_boxes_run image gyr _ _ _ _ _ Hs). cbn [fst snd].
  split; [reflexivity|]. f_equal.
  rewrite (seq_split_at i (nrows df) Hi). apply traverse_first_raise.
  - intros j Hj. apply in_seq in Hj. unfold fn.
    destruct (Hbefore j) as [v Hv]; [lia|]. rewrite Hv. eexists; reflexivity.
  - unfold fn. rewrite Hraise. reflexivity.
Qed.

Lemma statistic_failure_propagates_witness :
  measure_spot_intensity (Sample.cube 50) Numpy.max false
    (Sample.spots_at 2 10 10 10 (1 # 2))
  = (Raise (Propagated zero_size_error),
     snd (spot_boxes (Sample.cube 50) false
            (Sample.spots_at 2 10 10 10 (1 # 2)))).
Proof.
  refine (proj2 (statistic_failure_propagates (Sample.cube 50) Numpy.max false
           (Sample.spots_at 2 10 10 10 (1 # 2)) _ _ _ _ 0 zero_size_error
           (sample_has_spots 2 10 10 10 (1 # 2)) _ _ _)).
  - cbn. lia.
  - intros j Hj. lia.
  - vm_compute. reflexivity.
Defined.

(** ** Frame of the reference path *)

Lemma slice_step_refl st : slice_step st st.
Proof.
  split; [apply same_but_boxes_refl|]. exists []. rewrite app_nil_r.
  split; [reflexivity|constructor].
Qed.

Lemma slice_step_trans a b c : slice_step a b -> slice_step b c -> slice_step a c.
Proof.
  intros [H1 (n1 & E1 & F1)] [H2 (n2 & E2 & F2)]. split.
  - eapply same_but_boxes_trans; eassumption.
  - exists (n1 ++ n2)%list. split.
    + rewrite E2, E1, app_assoc. reflexivity.
    + apply Forall_app. split; assumption.
Qed.

Lemma slice_steps_ret {A} (a : A) : slice_steps (PyM.ret a).
Proof. intros st. apply slice_step_refl. Qed.

Lemma slice_steps_get : slice_steps PyM.get.
Proof. intros st. apply slice_step_refl. Qed.

Lemma slice_steps_lift {A} (r : result A) : slice_steps (PyM.lift r).
Proof. intros st. apply slice_step_refl. Qed.

Lemma slice_steps_bind {A B} (m : PyM.M (DataFrame * list event) A)
    (k : A -> PyM.M (DataFrame * list event) B) :
  slice_steps m -> (forall a, slice_steps (k a)) -> slice_steps (PyM.bind m k).
Proof.
  intros Hm Hk st. unfold PyM.bind. specialize (Hm st).
  destruct (m st) as [[a|e] st1]; cbn [snd] in *; [|exact Hm].
  eapply slice_step_trans; [exact Hm|]. apply Hk.
Qed.

Lemma slice_steps_emit ev : is_slice_event ev -> slice_steps (Trace.emit ev).
Proof.
  intros Hev st. split; [apply same_but_boxes_refl|].
  exists [ev]. split; [reflexivity|]. constructor; [exact Hev|constructor].
Qed.

Lemma slice_steps_on_store {A} (m : PyM.M DataFrame A) :
  touches_only_boxes m -> slice_steps (Trace.on_store m).
Proof.
  intros Hm st. unfold Trace.on_store. specialize (Hm (fst st)).
  destruct (m (fst st)) as [r df']. cbn [fst snd] in *.
  split; [exact Hm|]. exists []. rewrite app_nil_r.
  split; [reflexivity|constructor].
Qed.

Lemma slice_steps_foldM {A B} (f : B -> A -> PyM.M (DataFrame * list event) B)
    (l : list A) :
  (forall b a, slice_steps (f b a)) -> forall b, slice_steps (Trace.foldM f l b).
Proof.
  intros H. induction l as [|a l IH]; intros b; [apply slice_steps_ret|].
  cbn [Trace.foldM]. apply slice_steps_bind; [apply H|]. exact IH.
Qed.

Lemma measure_spot_intensities_steps data_image mf gyr :
  slice_steps (measure_spot_intensities data_image mf gyr).
Proof.
  unfold measure_spot_intensities.
  apply slice_steps_bind; [apply slice_steps_get|]. intros st.
  destruct (_ =? _); [apply slice_steps_ret|].
  apply slice_steps_foldM. intros t [c r]. unfold fill_slice.
  apply slice_steps_bind; [apply slice_steps_emit; exact I|]. intros _.
  apply slice_steps_bind;
    [apply slice_steps_on_store, touches_measure_spot_intensity|].
  intros blob.
  apply slice_steps_bind; [apply slice_steps_lift|]. intros t'.
  apply slice_steps_bind; [apply slice_steps_emit; exact I|]. intros _.
  apply slice_steps_ret.
Qed.

(** X9. Whatever the volume, the statistic and the table, and whether
    the call returns or raises, [measure_spot_intensities] leaves the row
    count and every column of the caller's table other than the six
    bounding-box columns as they were, and it extends the trace with slice
    reads and slice writes only. *)
Theorem measure_spot_intensities_frame data_image mf gyr df tr :
  let out := measure_spot_intensities data_image mf gyr (df, tr) in
  nrows (fst (snd out)) = nrows df /\
  (forall name, ~ In name bbox_columns ->
     columns (fst (snd out)) !! name = columns df !! name) /\
  exists new, snd (snd out) = (tr ++ new)%list /\ Forall is_slice_event new.
Proof.
  destruct (measure_spot_intensities_steps data_image mf gyr (df, tr))
    as [[Hn Hc] Hnew].
  cbn [fst snd] in *.
  cbv zeta. split; [exact Hn|]. split; [exact Hc|]. exact Hnew.
Qed.

(** ** detect_spots *)

(** X10. On the reference path, explicit or by maximum projection, tiles
    that are not aligned make [detect_spots] raise the alignment error
    before the spot finder is called; nothing is measured and the
    coordinate transfer is not called. *)
Theorem unaligned_tiles_stop_reference_path
    transfer data_stack finder mf gyr tr :
  tiles_aligned data_stack = false ->
  (forall image,
     detect_spots transfer data_stack finder (Some image) false mf gyr (tt, tr)
     = (Raise (ValueError alignment_message), (tt, tr))) /\
  detect_spots transfer data_stack finder None true mf gyr (tt, tr)
  = (Raise (ValueError alignment_message), (tt, (tr ++ [EvMaxProj])%list)).
Proof.
  intros Hal. split; [intros image|];
    unfold detect_spots, dispatch, PyM.bind, PyM.ret, PyM.raise, Trace.emit,
      PyM.modify; cbn; rewrite Hal; reflexivity.
Qed.

Lemma unaligned_tiles_stop_reference_path_witness :
  let stack :=
    {| shape_ch := 1; shape_round := 1;
       get_slice := fun _ _ => Sample.cube 4;
       tiles_aligned := false; max_proj := Sample.cube 4;
       tile_groups := [(0, 0)] |} in
  detect_spots (fun _ t => inl t) stack (fun _ => inl (Sample.found 1 3))
    None true Numpy.max false (tt, [])
  = (Raise (ValueError alignment_message), (tt, [EvMaxProj])).
Proof.
  intros stack.
  exact (proj2 (unaligned_tiles_stop_reference_path (fun _ t => inl t) stack
                  (fun _ => inl (Sample.found 1 3)) Numpy.max false []
                  eq_refl)).
Defined.

(** X11. Asking for the maximum projection is the same as passing the
    projection of the volume as the reference image, once the projection
    has been computed. *)
Theorem max_projection_is_reference transfer data_stack finder mf gyr tr :
  detect_spots transfer data_stack finder None true mf gyr (tt, tr)
  = detect_spots transfer data_stack finder (Some (max_proj data_stack)) false
      mf gyr (tt, (tr ++ [EvMaxProj])%list).
Proof.
  unfold detect_spots, PyM.bind, PyM.ret, Trace.emit, PyM.modify.
  reflexivity.
Qed.

Lemma reference_run data_image mf gyr df rad cz cy cx tr :
  has_spots df rad cz cy cx ->
  (forall a, exists v, mf a = inl v) ->
  exists t df' new,
    measure_spot_intensities data_image mf gyr (df, tr)
      = (Ok t, (df', (tr ++ new)%list)) /\
    Forall is_slice_event new /\
    n_features t = nrows df /\
    n_ch t = shape_ch data_image /\ n_round t = shape_round data_image /\
    forall i c r, i < nrows df -> c < n_ch t -> r < n_round t ->
      values t i c r = spot_value_at data_image mf gyr rad cz cy cx c r i.
Proof.
  intros Hs Hmf.
  destruct (measure_spot_intensities_steps data_image mf gyr (df, tr))
    as (_ & new0 & Hnew0 & Hslice).
  cbn [snd] in Hnew0.
  destruct (Nat.eq_dec (nrows df) 0) as [Hz|Hnz].
  - destruct (no_spots_run data_image mf gyr df tr Hz)
      as (t & Hrun & Hf & Hc & Hr & Hv).
    exists t, df, []. rewrite app_nil_r.
    split; [exact Hrun|]. split; [constructor|].
    split; [unfold n_features; rewrite Hf; reflexivity|].
    split; [exact Hc|]. split; [exact Hr|]. intros; lia.
  - set (n_c := shape_ch data_image). set (n_r := shape_round data_image).
    set (t0 := empty_intensity_table {| data := df |} n_c n_r).
    destruct (fill_slices_run data_image mf gyr rad cz cy cx Hmf
                (list_prod (seq 0 n_c) (seq 0 n_r)) t0 df tr Hs eq_refl)
      as (t & df' & Hrun & Hs' & Hn' & Hf & Hc & Hr & Hv).
    { intros c r Hin. apply in_prod_iff in Hin. destruct Hin as [H1 H2].
      apply in_seq in H1, H2. cbn. lia. }
    assert (Hm : measure_spot_intensities data_image mf gyr (df, tr)
                 = (Ok t, (df', (tr ++ flat_map slice_events
                      (list_prod (seq 0 n_c) (seq 0 n_r)))%list))).
    { unfold measure_spot_intensities, PyM.bind at 1, PyM.get.
      cbn [fst snd]. fold n_c n_r t0.
      unfold n_features at 1. cbn [features t0 empty_intensity_table data].
      apply Nat.eqb_neq in Hnz. rewrite Hnz. exact Hrun. }
    rewrite Hm in Hnew0. cbn [snd] in Hnew0. apply app_inv_head in Hnew0.
    exists t, df', (flat_map slice_events (list_prod (seq 0 n_c) (seq 0 n_r))).
    split; [exact Hm|]. split; [rewrite Hnew0; exact Hslice|].
    cbn [t0 empty_intensity_table features n_ch n_round] in Hf, Hc, Hr.
    unfold n_features. rewrite Hf, Hc, Hr.
    do 3 (split; [reflexivity|]).
    intros i c r Hi Hc' Hr'. rewrite Hv.
    apply Nat.ltb_lt in Hi. rewrite Hi. cbn [andb].
    replace (pair_in (c, r) (list_prod (seq 0 n_c) (seq 0 n_r))) with true;
      [reflexivity|].
    symmetry. apply pair_in_iff, in_prod_iff. rewrite !in_seq. lia.
Qed.

(** X12. With aligned tiles, a reference image on which the spot finder
    returns a well-formed table, and a statistic that returns on every
    sub-array, [detect_spots] calls the finder once, then reads and writes
    slices only, then calls the coordinate transfer once, last, on a table
    with one row per reference spot, the extents of the volume and every
    entry measured; what the transfer returns is the result. *)
Theorem reference_path_end_to_end
    transfer data_stack finder image mf gyr sa rad cz cy cx tr :
  tiles_aligned data_stack = true ->
  finder image = inl sa ->
  has_spots (data sa) rad cz cy cx ->
  (forall a, exists v, mf a = inl v) ->
  exists t new,
    detect_spots transfer data_stack finder (Some image) false mf gyr (tt, tr)
    = (of_callee (transfer data_stack t),
       (tt, (tr ++ [EvFindSpots] ++ new ++ [EvTransfer])%list)) /\
    Forall is_slice_event new /\
    n_features t = nrows (data sa) /\
    n_ch t = shape_ch data_stack /\ n_round t = shape_round data_stack /\
    forall i c r, i < n_features t -> c < n_ch t -> r < n_round t ->
      let slice := get_slice data_stack c r in
      mf (crop slice (box_of slice gyr rad cz cy cx i)) = inl (values t i c r).
Proof.
  intros Hal Hf Hs Hmf.
  destruct (reference_run data_stack mf gyr (data sa) rad cz cy cx
              (tr ++ [EvFindSpots])%list Hs Hmf)
    as (t & df' & new & Hrun & Hslice & Hn & Hc & Hr & Hv).
  exists t, new. split.
  { unfold detect_spots, dispatch. cbn [bool_decide andb].
    rewrite andb_false_r.
    unfold PyM.bind at 1, PyM.ret at 1.
    unfold PyM.bind at 1. unfold PyM.bind at 1. rewrite Hal. cbn [negb].
    unfold PyM.bind at 1, Trace.emit at 1, PyM.modify at 1. cbn [fst snd].
    unfold PyM.bind at 1, PyM.lift at 1. rewrite Hf. cbn [of_callee].
    unfold with_store. cbn [snd]. rewrite Hrun. cbn [snd].
    unfold PyM.bind, Trace.emit, PyM.modify, PyM.lift. cbn [fst snd].
    rewrite <- !app_assoc. reflexivity. }
  split; [exact Hslice|]. split; [exact Hn|]. split; [exact Hc|].
  split; [exact Hr|].
  intros i c r Hi Hc' Hr'. cbv zeta. rewrite Hv by (try rewrite <- Hn; assumption).
  unfold spot_value_at. cbv zeta.
  destruct (Hmf (crop (get_slice data_stack c r)
                   (box_of (get_slice data_stack c r) gyr rad cz cy cx i)))
    as [v Hv0].
  rewrite Hv0. reflexivity.
Qed.

Lemma reference_path_end_to_end_witness :
  exists t new,
    detect_spots (fun _ t => inl t) (Sample.stack 2 3 10)
      (fun _ => inl {| data := Sample.spots_at 2 0 0 0 5 |})
      (Some (Sample.cube 10)) false Numpy.sum false (tt, [])
    = (Ok t, (tt, ([] ++ [EvFindSpots] ++ new ++ [EvTransfer])%list)) /\
    n_features t = 2.
Proof.
  destruct (reference_path_end_to_end (fun _ t => inl t) (Sample.stack 2 3 10)
              (fun _ => inl {| data := Sample.spots_at 2 0 0 0 5 |})
              (Sample.cube 10) Numpy.sum false
              {| data := Sample.spots_at 2 0 0 0 5 |} _ _ _ _ []
              eq_refl eq_refl (sample_has_spots 2 0 0 0 5)
              (fun a => ex_intro _ _ eq_refl))
    as (t & new & Hrun & _ & Hn & _).
  exists t, new. split; [exact Hrun|exact Hn].
Defined.

(** X13. When the spot finder raises on the reference image, the
    exception propagates out of [detect_spots]: the finder was called
    once, and nothing was measured or transferred. *)
Theorem finder_failure_propagates
    transfer data_stack finder image mf gyr (e : foreign_exception) tr :
  tiles_aligned data_stack = true ->
  finder image = inr e ->
  detect_spots transfer data_stack finder (Some image) false mf gyr (tt, tr)
  = (Raise (Propagated e), (tt, (tr ++ [EvFindSpots])%list)).
Proof.
  intros Hal Hf.
  unfold detect_spots, dispatch. cbn [bool_decide andb]. rewrite andb_false_r.
  unfold PyM.bind, PyM.ret, Trace.emit, PyM.modify, PyM.lift.
  rewrite Hal. cbn [negb fst snd]. rewrite Hf. reflexivity.
Qed.

Lemma finder_failure_propagates_witness :
  detect_spots (fun _ t => inl t) (Sample.stack 2 3 10)
    (fun _ => inr zero_size_error) (Some (Sample.cube 10)) false
    Numpy.max false (tt, [])
  = (Raise (Propagated zero_size_error), (tt, [EvFindSpots])).
Proof.
  exact (finder_failure_propagates (fun _ t => inl t) (Sample.stack 2 3 10)
           (fun _ => inr zero_size_error) (Sample.cube 10) Numpy.max false
           zero_size_error [] eq_refl eq_refl).
Defined.

Lemma transform_run data_stack finder groups : forall tr,
  (forall cr, In cr groups ->
     exists sa, finder (get_slice data_stack (fst cr) (snd cr)) = inl sa) ->
  PyM.mapM
    (fun cr : nat * nat =>
       PyM.bind (Trace.emit EvFindSpots) (fun _ =>
       PyM.bind (PyM.lift (of_callee
                   (finder (get_slice data_stack (fst cr) (snd cr)))))
         (fun sa => PyM.ret (sa, {| ind_ch := fst cr; ind_round := snd cr |}))))
    groups (tt, tr)
  = (Ok (map (found_in data_stack finder) groups),
     (tt, (tr ++ repeat EvFindSpots (length groups))%list)).
Proof.
  induction groups as [|cr groups IH]; intros tr Hall.
  - cbn. rewrite app_nil_r. reflexivity.
  - destruct (Hall cr (or_introl eq_refl)) as [sa Hsa].
    cbn [PyM.mapM map length repeat].
    unfold PyM.bind at 1. unfold PyM.bind at 1.
    unfold Trace.emit at 1, PyM.modify at 1. cbn [fst snd].
    unfold PyM.bind at 1, PyM.lift at 1. rewrite Hsa. cbn [of_callee].
    unfold PyM.ret at 1. unfold PyM.bind at 1.
    rewrite IH by (intros; apply Hall; right; assumption).
    unfold PyM.ret, found_in. rewrite Hsa, <- app_assoc. reflexivity.
Qed.

(** X14. Without a reference image, when the spot finder returns a table
    with spot identifiers and intensities on every (channel, round) group
    of a non-empty volume, [detect_spots] calls the finder once per group,
    writes one entry per detected spot, and hands the coordinate transfer
    a table with as many rows as spots were found in all groups together;
    the statistic, the gyration flag and the alignment of the tiles play
    no part. *)
Theorem independent_path_end_to_end
    transfer data_stack finder mf gyr tr :
  tile_groups data_stack <> [] ->
  (forall cr, In cr (tile_groups data_stack) ->
     exists sa,
       finder (get_slice data_stack (fst cr) (snd cr)) = inl sa /\
       detected (sa, {| ind_ch := fst cr; ind_round := snd cr |})) ->
  let pairs := map (found_in data_stack finder) (tile_groups data_stack) in
  exists t,
    detect_spots transfer data_stack finder None false mf gyr (tt, tr)
    = (of_callee (transfer data_stack t),
       (tt, (tr ++ repeat EvFindSpots (length (tile_groups data_stack))
                ++ write_events 0 (stamped_rows pairs)
                ++ [EvTransfer])%list)) /\
    n_features t = list_sum (map (fun p => nrows (data (fst p))) pairs) /\
    (forall cr, In cr (tile_groups data_stack) ->
       fst cr < n_ch t /\ snd cr < n_round t) /\
    (exists cr, In cr (tile_groups data_stack) /\ n_ch t = fst cr + 1) /\
    (exists cr, In cr (tile_groups data_stack) /\ n_round t = snd cr + 1) /\
    forall i c r,
      values t i c r = overlay 0 (stamped_rows pairs) (fun _ _ _ => NaN) i c r.
Proof.
  intros Hne Hall pairs.
  assert (Hdet : Forall detected pairs).
  { apply List.Forall_forall. intros p Hp. unfold pairs in Hp.
    apply in_map_iff in Hp. destruct Hp as (cr & <- & Hcr).
    destruct (Hall cr Hcr) as (sa & Hsa & Hd).
    unfold found_in. rewrite Hsa. exact Hd. }
  assert (Hpairs : exists p ps, pairs = p :: ps).
  { unfold pairs. destruct (tile_groups data_stack); [congruence|].
    cbn. eauto. }
  destruct Hpairs as (p & ps & Hpp). rewrite Hpp in Hdet.
  destruct (concatenate_run p ps
              (tr ++ repeat EvFindSpots (length (tile_groups data_stack)))%list
              Hdet)
    as (t & Hrun & Hn & Hch & Hch_le & Hr & Hr_le & Hv).
  rewrite <- Hpp in *. clear Hpp p ps.
  assert (Hin : forall q, In q pairs ->
            exists cr, In cr (tile_groups data_stack) /\
                       ind_ch (snd q) = fst cr /\ ind_round (snd q) = snd cr).
  { intros q Hq. unfold pairs in Hq. apply in_map_iff in Hq.
    destruct Hq as (cr & <- & Hcr). exists cr. repeat split. exact Hcr. }
  exists t. split.
  { assert (Ht : transform data_stack finder (tt, tr)
                 = (Ok pairs,
                    (tt, (tr ++ repeat EvFindSpots
                                  (length (tile_groups data_stack)))%list))).
    { unfold transform. apply transform_run.
      intros cr Hcr. destruct (Hall cr Hcr) as (sa & Hsa & _). eauto. }
    unfold detect_spots, dispatch. rewrite andb_false_r.
    unfold PyM.bind at 1, PyM.ret at 1.
    unfold PyM.bind at 1. unfold PyM.bind at 1. rewrite Ht, Hrun.
    unfold PyM.bind, Trace.emit, PyM.modify, PyM.lift. cbn [fst snd].
    rewrite <- !app_assoc. reflexivity. }
  split; [rewrite Hn; apply length_stamped_rows|].
  split.
  { intros cr Hcr.
    assert (Hq : In (found_in data_stack finder cr) pairs)
      by (unfold pairs; apply in_map, Hcr).
    split; [apply (Hch_le _ Hq)|apply (Hr_le _ Hq)]. }
  split.
  { destruct Hch as (q & Hq & Hqn). destruct (Hin q Hq) as (cr & Hcr & E1 & _).
    exists cr. split; [exact Hcr|]. lia. }
  split.
  { destruct Hr as (q & Hq & Hqn). destruct (Hin q Hq) as (cr & Hcr & _ & E2).
    exists cr. split; [exact Hcr|]. lia. }
  exact Hv.
Qed.

Lemma independent_path_end_to_end_witness :
  exists t,
    fst (detect_spots (fun _ t => inl t) (Sample.stack 1 2 4)
           (fun _ => inl (Sample.found 1 3)) None false Numpy.max false (tt, []))
    = Ok t /\
    n_features t = 2.
Proof.
  destruct (independent_path_end_to_end (fun _ t => inl t) (Sample.stack 1 2 4)
              (fun _ => inl (Sample.found 1 3)) Numpy.max false [])
    as (t & Hrun & Hn & _).
  - discriminate.
  - intros cr _. eexists. split; [reflexivity|].
    split; eexists; vm_compute; reflexivity.
  - exists t. rewrite Hrun. split; [reflexivity|exact Hn].
Defined.

(** X15. Without a reference image a volume with no (channel, round)
    group makes [detect_spots] raise the empty-maximum error of the
    concatenation: the spot finder and the coordinate transfer are not
    called. *)
Theorem no_tiles_no_table transfer data_stack finder mf gyr tr :
  tile_groups data_stack = [] ->
  detect_spots transfer data_stack finder None false mf gyr (tt, tr)
  = (Raise (ValueError empty_max_message), (tt, tr)).
Proof.
  intros Hg. unfold detect_spots, dispatch, transform. rewrite Hg. reflexivity.
Qed.

Lemma no_tiles_no_table_witness :
  detect_spots (fun _ t => inl t) (Sample.stack 0 3 4)
    (fun _ => inl (Sample.found 1 3)) None false Numpy.max false (tt, [])
  = (Raise (ValueError empty_max_message), (tt, [])).
Proof.
  exact (no_tiles_no_table (fun _ t => inl t) (Sample.stack 0 3 4)
           (fun _ => inl (Sample.found 1 3)) Numpy.max false [] eq_refl).
Defined.

(** ** The side table of the concatenation *)

Lemma concat_two_lookup a b name :
  columns (concat_two a b) !! name
  = match columns a !! name, columns b !! name with
    | None, None => None
    | oa, ob =>
        Some (fun i => if i <? nrows a then default nan_series oa i
                       else default nan_series ob (i - nrows a))
    end.
Proof.
  unfold concat_two. cbn [columns]. rewrite lookup_merge.
  destruct (columns a !! name), (columns b !! name); reflexivity.
Qed.


Lemma concat_lookup_exists fs : forall f name,
  (exists s, columns (fold_left concat_two fs f) !! name = Some s) <->
  (exists g, In g (f :: fs) /\ exists s, columns g !! name = Some s).
Proof.
  induction fs as [|b fs IH]; intros f name; cbn [fold_left].
  - split.
    + intros Hs. exists f. split; [left; reflexivity|exact Hs].
    + intros (g & [<-|[]] & Hs). exact Hs.
  - rewrite IH. split.
    + intros (g & [<-|Hg] & s & Hs).
      * rewrite concat_two_lookup in Hs.
        destruct (columns f !! name) as [sf|] eqn:Ef.
        -- exists f. split; [left; reflexivity|eauto].
        -- destruct (columns b !! name) as [sb|] eqn:Eb; [|discriminate Hs].
           exists b. split; [right; left; reflexivity|eauto].
      * exists g. split; [right; right; exact Hg|eauto].
    + intros (g & [<-|[<-|Hg]] & s & Hs).
      * exists (concat_two f b). split; [left; reflexivity|].
        rewrite concat_two_lookup, Hs. destruct (columns b !! name); eauto.
      * exists (concat_two f b). split; [left; reflexivity|].
        rewrite concat_two_lookup, Hs. destruct (columns f !! name); eauto.
      * exists g. split; [right; exact Hg|eauto].
Qed.

Lemma concat_lookup_cell fs : forall f name (s : Series),
  columns (fold_left concat_two fs f) !! name = Some s ->
  forall i, i < nrows f + list_sum (map nrows fs) ->
    s i = concat_cell (f :: fs) name i.
Proof.
  induction fs as [|b fs IH]; intros f name s Hs i Hi; cbn [fold_left] in Hs.
  - simpl in Hi. cbn [concat_cell].
    replace (i <? nrows f) with true by (symmetry; apply Nat.ltb_lt; lia).
    rewrite Hs. reflexivity.
  - rewrite (IH _ _ _ Hs i) by (simpl in Hi |- *; lia).
    cbn [concat_cell]. cbn [concat_two nrows].
    destruct (i <? nrows f) eqn:E1.
    + pose proof E1 as E1b. apply Nat.ltb_lt in E1.
      replace (i <? nrows f + nrows b) with true
        by (symmetry; apply Nat.ltb_lt; lia).
      fold (concat_two f b). rewrite concat_two_lookup.
      destruct (columns f !! name) as [sf|], (columns b !! name) as [sb|];
        simpl; rewrite ?E1b; reflexivity.
    + pose proof E1 as E1b. apply Nat.ltb_ge in E1.
      destruct (i - nrows f <? nrows b) eqn:E2.
      * apply Nat.ltb_lt in E2.
        replace (i <? nrows f + nrows b) with true
          by (symmetry; apply Nat.ltb_lt; lia).
        fold (concat_two f b). rewrite concat_two_lookup.
        destruct (columns f !! name) as [sf|], (columns b !! name) as [sb|];
          simpl; rewrite ?E1b; reflexivity.
      * apply Nat.ltb_ge in E2.
        replace (i <? nrows f + nrows b) with false
          by (symmetry; apply Nat.ltb_ge; lia).
        f_equal. lia.
Qed.

Lemma pd_drop_lookup labels : forall df df',
  pd_drop labels df = Ok df' ->
  forall name,
    (In name labels -> columns df' !! name = None) /\
    (~ In name labels -> columns df' !! name = columns df !! name).
Proof.
  induction labels as [|l ls IH]; intros df df' H name; cbn [pd_drop] in H.
  - inversion H; subst. split; [intros []|reflexivity].
  - destruct (columns df !! l); [|discriminate H].
    destruct (pd_drop ls df) as [df1|] eqn:E; [|discriminate H].
    inversion H; subst. cbn [columns].
    destruct (IH df df1 E name) as [Hin Hout]. split.
    + intros [->|Hl]; [apply lookup_delete_eq|].
      destruct (decide (l = name)) as [->|Hne]; [apply lookup_delete_eq|].
      rewrite lookup_delete_ne by exact Hne. apply Hin, Hl.
    + intros Hnot. rewrite lookup_delete_ne
        by (intros ->; apply Hnot; left; reflexivity).
      apply Hout. intros Hl. apply Hnot. right. exact Hl.
Qed.

Lemma concatenate_features p ps tr :
  Forall detected (p :: ps) ->
  exists t fc,
    fst (concatenate_spot_attributes_to_intensities (p :: ps) (tt, tr)) = Ok t /\
    pd_drop ["spot_id"; "intensity"]
      (fold_left concat_two (map (fun q => data (fst q)) ps) (data (fst p)))
      = Ok fc /\
    features t = fc.
Proof.
  intros Hdet. set (pairs := p :: ps) in *.
  destruct (py_max_spec (ind_ch (snd p)) (map (fun q => ind_ch (snd q)) ps))
    as (m_ch & Hmch & Hch_in & Hch_le).
  destruct (py_max_spec (ind_round (snd p)) (map (fun q => ind_round (snd q)) ps))
    as (m_r & Hmr & Hr_in & Hr_le).
  change (ind_ch (snd p) :: map (fun q => ind_ch (snd q)) ps)
    with (map (fun q => ind_ch (snd q)) pairs) in *.
  change (ind_round (snd p) :: map (fun q => ind_round (snd q)) ps)
    with (map (fun q => ind_round (snd q)) pairs) in *.
  set (all_spots := fold_left concat_two (map (fun q => data (fst q)) ps)
                      (data (fst p))).
  assert (Hhead : detected p) by (inversion Hdet; assumption).
  destruct Hhead as [[sid Hsid] [sint Hsint]].
  destruct (pd_drop_ok ["spot_id"; "intensity"] all_spots) as (fc & Hdrop & Hfc).
  { intros l [<-|[<-|[]]]; unfold all_spots.
    - eapply concat_keeps, Hsid.
    - eapply concat_keeps, Hsint. }
  set (t0 := empty_intensity_table {| data := fc |} (m_ch + 1) (m_r + 1)).
  destruct (write_rows_loop pairs 0 t0 tr Hdet) as (t & Hrun & Hf & _).
  { unfold n_features, t0. cbn [features empty_intensity_table data].
    rewrite Hfc. unfold all_spots. rewrite concat_nrows, length_stamped_rows.
    unfold pairs. simpl list_sum. rewrite map_map. lia. }
  { intros q Hq. cbn [t0 empty_intensity_table n_ch n_round]. split.
    - assert (ind_ch (snd q) <= m_ch); [|lia].
      apply Hch_le. apply (in_map (fun q => ind_ch (snd q))), Hq.
    - assert (ind_round (snd q) <= m_r); [|lia].
      apply Hr_le. apply (in_map (fun q => ind_round (snd q))), Hq. }
  exists t, fc. split; [|split; [exact Hdrop|exact Hf]].
  unfold concatenate_spot_attributes_to_intensities.
  unfold PyM.bind at 1, PyM.lift at 1. rewrite Hmch.
  unfold PyM.bind at 1, PyM.lift at 1. rewrite Hmr.
  unfold PyM.bind at 1, PyM.lift at 1. unfold pairs at 1. cbn [map pd_concat fst].
  fold all_spots.
  unfold PyM.bind at 1, PyM.lift at 1. rewrite Hdrop. fold t0.
  unfold PyM.bind at 1. rewrite Hrun. reflexivity.
Qed.

(** X16. The side table of the concatenation has the rows of all
    per-slice tables in input order, no [spot_id] and no [intensity]
    column, and every other column that some per-slice table has; row [i]
    of such a column holds the value from the table that row came from,
    NaN where that table lacks the column. *)
Theorem concatenate_side_table p ps tr :
  Forall detected (p :: ps) ->
  let frames := map (fun q => data (fst q)) (p :: ps) in
  exists t,
    fst (concatenate_spot_attributes_to_intensities (p :: ps) (tt, tr)) = Ok t /\
    nrows (features t) = list_sum (map nrows frames) /\
    columns (features t) !! "spot_id" = None /\
    columns (features t) !! "intensity" = None /\
    forall name, name <> "spot_id" -> name <> "intensity" ->
      ((exists s, columns (features t) !! name = Some s) <->
       (exists f, In f frames /\ exists s, columns f !! name = Some s)) /\
      forall s : Series,
        columns (features t) !! name = Some s ->
        forall i, i < nrows (features t) -> s i = concat_cell frames name i.
Proof.
  intros Hdet frames.
  destruct (concatenate_features p ps tr Hdet) as (t & fc & Hrun & Hdrop & Hf).
  destruct (pd_drop_ok ["spot_id"; "intensity"]
              (fold_left concat_two (map (fun q => data (fst q)) ps)
                 (data (fst p)))) as (fc' & Hdrop' & Hn).
  { intros l Hl.
    destruct (pd_drop_lookup _ _ _ Hdrop l) as [_ _].
    unfold pd_drop in Hdrop.
    destruct Hl as [<-|[<-|[]]].
    - destruct (_ !! "spot_id"); [eauto|discriminate Hdrop].
    - destruct (_ !! "spot_id"); [|discriminate Hdrop].
      destruct (_ !! "intensity"); [eauto|discriminate Hdrop]. }
  rewrite Hdrop in Hdrop'. inversion Hdrop'; subst fc'. clear Hdrop'.
  exists t. split; [exact Hrun|]. rewrite Hf.
  split; [rewrite Hn, concat_nrows; unfold frames; reflexivity|].
  split; [apply (pd_drop_lookup _ _ _ Hdrop "spot_id"); left; reflexivity|].
  split; [apply (pd_drop_lookup _ _ _ Hdrop "intensity"); right; left;
          reflexivity|].
  intros name H1 H2.
  assert (Hkeep : columns fc !! name
                  = columns (fold_left concat_two
                               (map (fun q => data (fst q)) ps) (data (fst p)))
                    !! name).
  { apply (pd_drop_lookup _ _ _ Hdrop name).
    intros [E|[E|[]]]; congruence. }
  rewrite Hkeep. split.
  - apply concat_lookup_exists.
  - intros s Hs i Hi. rewrite Hn, concat_nrows in Hi.
    exact (concat_lookup_cell _ _ _ _ Hs i Hi).
Qed.

Lemma concatenate_side_table_witness :
  exists t,
    fst (concatenate_spot_attributes_to_intensities Sample.found_pairs (tt, []))
      = Ok t /\
    nrows (features t) = 3 /\
    columns (features t) !! "spot_id" = None.
Proof.
  destruct (concatenate_side_table _ _ [] sample_detected)
    as (t & Hrun & Hn & Hid & _).
  exists t. repeat split; assumption.
Defined.



(** ** The decoder registry *)

(** X18. [all_filters] holds exactly the bindings of the module whose
    value is a class that is a subclass of [DecodeSpotsAlgorithm], in
    binding order; since a class is a subclass of itself the base class is
    among them, so [__all__] lists it; and [__all__] has no duplicates. *)
Theorem all_filters_are_the_decoders
    {Obj : Type} (is_type : Obj -> bool) (issubclass : Obj -> Obj -> bool)
    (base : Obj) (locals : list (string * Obj)) :
  NoDup (map fst locals) ->
  is_type base = true -> issubclass base base = true ->
  (forall name cls,
     In (name, cls) (all_filters is_type issubclass base locals) <->
     In (name, cls) locals /\ is_type cls = true /\ issubclass cls base = true) /\
  (forall name, In (name, base) locals ->
     In name (__all__ is_type issubclass base locals)) /\
  (forall name, In name (__all__ is_type issubclass base locals) ->
     In name (map fst locals)) /\
  sublist (__all__ is_type issubclass base locals) (map fst locals) /\
  NoDup (__all__ is_type issubclass base locals).
Proof.
  intros Hnd Hty Hrefl.
  assert (Hsub : sublist (__all__ is_type issubclass base locals)
                         (map fst locals)).
  { unfold __all__, all_filters. clear.
    induction locals as [|[n o] l IH]; [constructor|].
    cbn [List.filter map fst snd].
    destruct (is_type o && issubclass o base); cbn [map fst].
    - apply sublist_skip, IH.
    - apply sublist_cons, IH. }
  split.
  { intros name cls. unfold all_filters. rewrite filter_In. cbn [snd].
    rewrite andb_true_iff. reflexivity. }
  split.
  { intros name Hin. unfold __all__, all_filters.
    apply (in_map fst _ (name, base)). apply filter_In. split; [exact Hin|].
    cbn [snd]. rewrite Hty, Hrefl. reflexivity. }
  split.
  { intros name Hin. unfold __all__, all_filters in Hin.
    apply in_map_iff in Hin. destruct Hin as (item & Hname & Hin).
    apply filter_In in Hin. destruct Hin as [Hin _].
    rewrite <- Hname. apply in_map, Hin. }
  split; [exact Hsub|].
  eapply sublist_NoDup; eassumption.
Qed.

Lemma all_filters_are_the_decoders_witness :
  In "DecodeSpotsAlgorithm"
     (__all__ SampleDecoders.is_type SampleDecoders.issubclass
        SampleDecoders.base SampleDecoders.locals).
Proof.
  assert (Hnd : NoDup (map fst SampleDecoders.locals)).
  { apply (bool_decide_unpack (NoDup (map fst SampleDecoders.locals))).
    vm_compute. reflexivity. }
  apply (proj1 (proj2 (all_filters_are_the_decoders
           SampleDecoders.is_type SampleDecoders.issubclass
           SampleDecoders.base SampleDecoders.locals Hnd eq_refl eq_refl))).
  cbn. tauto.
Defined.
